(** * camera-qna-react: the capture / OCR / answer pipeline of [App.tsx]

    A shallow embedding of [src/App.tsx] (the current revision of the
    component) and of the capture cycle of its previous revision, with the
    properties of the pipeline stated over it.

    Layout:
    - JavaScript data: strings as UTF-16 code units, numbers as binary64,
      JSON values, truthiness, optional chaining, [trim], [Number];
    - the effects of one cycle: a monad threading the React state and a log
      of the calls made, with JavaScript exceptions;
    - [doOcr], [askOpenAI], [captureAndProcess], the [useEffect] body and
      the settings handlers, in the order of the source;
    - the theorems. *)

From Stdlib Require Import ZArith NArith List Bool String Ascii Lia DecimalString.
From Stdlib Require Import Floats.SpecFloat.
Import ListNotations.

Local Open Scope Z_scope.

(** ** JavaScript strings *)

(** A JavaScript string is a sequence of UTF-16 code units. *)
Definition jsstring := list N.

(** The code units of an ASCII literal of the source. *)
Fixpoint js (s : string) : jsstring :=
  match s with
  | EmptyString => []
  | String c r => N_of_ascii c :: js r
  end.

Fixpoint jseqb (a b : jsstring) : bool :=
  match a, b with
  | [], [] => true
  | x :: a', y :: b' => N.eqb x y && jseqb a' b'
  | _, _ => false
  end.

(** [WhiteSpace] and [LineTerminator] of ECMAScript: the code units that
    [String.prototype.trim] strips (and that [Number] skips). *)
Definition is_whitespace (c : N) : bool :=
  match c with
  | 0x0009 | 0x000A | 0x000B | 0x000C | 0x000D | 0x0020 | 0x00A0
  | 0x1680 | 0x2000 | 0x2001 | 0x2002 | 0x2003 | 0x2004 | 0x2005
  | 0x2006 | 0x2007 | 0x2008 | 0x2009 | 0x200A | 0x2028 | 0x2029
  | 0x202F | 0x205F | 0x3000 | 0xFEFF => true
  | _ => false
  end%N.

Fixpoint trimStart (s : jsstring) : jsstring :=
  match s with
  | [] => []
  | c :: r => if is_whitespace c then trimStart r else s
  end.

Definition trimEnd (s : jsstring) : jsstring := rev (trimStart (rev s)).

(** [s.trim()] *)
Definition trim (s : jsstring) : jsstring := trimEnd (trimStart s).

(** ** JavaScript numbers and values *)

(** A JavaScript number is an IEEE 754 binary64. *)
Definition number := spec_float.

Definition prec : Z := 53.
Definition emax : Z := 1024.

Definition num_of_Z (z : Z) : number := binary_normalize prec emax z 0 false.

(** What a response body, a state variable or a local of the component can
    hold: [undefined] and the values [JSON.parse] produces.  An object is
    the list of its own properties. *)
#[local] Unset Elimination Schemes.
Inductive value : Type :=
| VUndefined
| VNull
| VBool (b : bool)
| VNum (n : number)
| VStr (s : jsstring)
| VArr (items : list value)
| VObj (fields : list (jsstring * value)).
#[local] Set Elimination Schemes.

(** [ToBoolean] *)
Definition truthy (v : value) : bool :=
  match v with
  | VUndefined | VNull => false
  | VBool b => b
  | VNum (S754_zero _) | VNum S754_nan => false
  | VNum _ => true
  | VStr [] => false
  | VStr _ => true
  | VArr _ | VObj _ => true
  end.

(** [a || b] *)
Definition js_or (a b : value) : value := if truthy a then a else b.

Definition nullish (v : value) : bool :=
  match v with
  | VUndefined | VNull => true
  | _ => false
  end.

Fixpoint own_property (fields : list (jsstring * value)) (k : jsstring) : value :=
  match fields with
  | [] => VUndefined
  | (k', v) :: r => if jseqb k' k then v else own_property r k
  end.

(** [v[k]] for [v] neither [null] nor [undefined], at the property names
    this component reads ([ParsedResults], [0], [ParsedText], [choices],
    [message], [content]): none of them is inherited from a prototype, so
    the result is the own property or [undefined].  Index [0] is the
    property named ["0"]. *)
Definition property (v : value) (k : jsstring) : value :=
  match v with
  | VObj fields => own_property fields k
  | VArr items =>
      if jseqb k (js "0") then
        match items with
        | x :: _ => x
        | [] => VUndefined
        end
      else VUndefined
  | VStr s =>
      if jseqb k (js "0") then
        match s with
        | c :: _ => VStr [c]
        | [] => VUndefined
        end
      else VUndefined
  | _ => VUndefined
  end.

(** [v?.k] and [v?.[k]] *)
Definition opt_property (v : value) (k : jsstring) : value :=
  if nullish v then VUndefined else property v k.

Notation "v ?. k" := (opt_property v (js k)) (at level 40, left associativity).

(** ** [Number]: string to number conversion *)

(** The value of [c] as a digit of the given base (2, 8, 10 or 16). *)
Definition digit_of (base : Z) (c : N) : option Z :=
  let d :=
    if ((0x30 <=? c) && (c <=? 0x39))%N then Z.of_N c - 0x30
    else if ((0x61 <=? c) && (c <=? 0x66))%N then Z.of_N c - 0x61 + 10
    else if ((0x41 <=? c) && (c <=? 0x46))%N then Z.of_N c - 0x41 + 10
    else base in
  if d <? base then Some d else None.

(** Reads the longest run of digits at the head of [s]: the number they
    denote after [acc], how many there are, and what follows them. *)
Fixpoint scan_digits (base : Z) (s : jsstring) (acc n : Z) : Z * Z * jsstring :=
  match s with
  | [] => (acc, n, [])
  | c :: r =>
      match digit_of base c with
      | Some d => scan_digits base r (acc * base + d) (n + 1)
      | None => (acc, n, s)
      end
  end.

Definition is_nil (s : jsstring) : bool :=
  match s with [] => true | _ => false end.

(** The binary64 nearest to [p / q] (ties to even), for [0 <= p], [0 < q]. *)
Definition round_ratio (p q : Z) : number :=
  match p, q with
  | Zpos p', Zpos q' =>
      SFdiv prec emax (S754_finite false p' 0) (S754_finite false q' 0)
  | _, _ => S754_zero false
  end.

(** The binary64 nearest to [m * 10 ^ e], for [0 <= m]. *)
Definition round_decimal (m e : Z) : number :=
  if 0 <=? e then round_ratio (m * 10 ^ e) 1 else round_ratio m (10 ^ (- e)).

(** [ExponentPart], optional: its value, or [None] when [s] is neither
    empty nor an exponent part. *)
Definition exponent_part (s : jsstring) : option Z :=
  match s with
  | [] => Some 0
  | c :: r =>
      if (c =? 0x65)%N || (c =? 0x45)%N then
        let '(sign, r') :=
          match r with
          | 0x2B%N :: t => (1, t)
          | 0x2D%N :: t => (-1, t)
          | _ => (1, r)
          end in
        let '(v, n, rest) := scan_digits 10 r' 0 0 in
        if (0 <? n) && is_nil rest then Some (sign * v) else None
      else None
  end.

(** [StrUnsignedDecimalLiteral]: [Infinity], or digits with an optional
    fraction and an optional exponent. *)
Definition unsigned_decimal (s : jsstring) : option number :=
  if jseqb s (js "Infinity") then Some (S754_infinity false)
  else
    let '(i, ni, r1) := scan_digits 10 s 0 0 in
    let '(m, nf, r2) :=
      match r1 with
      | 0x2E%N :: t => scan_digits 10 t i 0
      | _ => (i, 0, r1)
      end in
    if (0 <? ni) || (0 <? nf) then
      match exponent_part r2 with
      | Some e => Some (round_decimal m (e - nf))
      | None => None
      end
    else None.

(** [NonDecimalIntegerLiteral]: [0x], [0o] or [0b] and digits of that base. *)
Definition non_decimal (s : jsstring) : option (option number) :=
  match s with
  | 0x30%N :: p :: r =>
      let base :=
        if (p =? 0x78)%N || (p =? 0x58)%N then Some 16
        else if (p =? 0x6F)%N || (p =? 0x4F)%N then Some 8
        else if (p =? 0x62)%N || (p =? 0x42)%N then Some 2
        else None in
      match base with
      | Some b =>
          let '(v, n, rest) := scan_digits b r 0 0 in
          Some (if (0 <? n) && is_nil rest then Some (round_ratio v 1) else None)
      | None => None
      end
  | _ => None
  end.

(** [StringToNumber]: white space around the literal is skipped, the empty
    literal is [+0], and anything that is not a numeric literal is [NaN]. *)
Definition StringToNumber (s : jsstring) : number :=
  let t := trim s in
  let r :=
    match t with
    | [] => Some (S754_zero false)
    | 0x2B%N :: u => unsigned_decimal u
    | 0x2D%N :: u => option_map SFopp (unsigned_decimal u)
    | _ =>
        match non_decimal t with
        | Some r => r
        | None => unsigned_decimal t
        end
    end in
  match r with
  | Some n => n
  | None => S754_nan
  end.

(** A positive integer, as a property of a binary64. *)
Definition is_positive_integer (n : number) : bool :=
  match n with
  | S754_finite false m e =>
      if 0 <=? e then true else Z.pos m mod 2 ^ (- e) =? 0
  | _ => false
  end.

(** ** The component's state and its surroundings *)

(** The [useState] variables of the pipeline. *)
Record RunState := {
  capturing : bool;
  dotColor : jsstring;
  answer : value;
  status : jsstring
}.

(** The [useState] variables of the settings dialog. *)
Record Settings := {
  settingsOpen : bool;
  openAiKey : jsstring;
  ocrKey : jsstring;
  prompt : jsstring;
  interval : number
}.

Inductive body :=
| FormData (entries : list (jsstring * jsstring))
| Json (v : value).

Record request := {
  req_url : jsstring;
  req_data : body;
  req_headers : list (jsstring * jsstring)
}.

(** The calls a cycle makes, in the order it makes them. *)
Inductive event :=
| SetStatus (s : jsstring)
| SetAnswer (v : value)
| SetCapturing (b : bool)
| SetDotColor (s : jsstring)
| GetScreenshot
| AxiosPost (r : request).

(** A repeating timer of the browser: the delay in milliseconds and the
    settings its callback closed over. *)
Record timer := {
  timer_id : nat;
  timer_delay : number;
  timer_closure : Settings
}.

Record Store := {
  run : RunState;
  settings : Settings;
  timerRef : option nat;
  cleanup : bool;
  timers : list timer;
  next_timer : nat;
  localStorage : jsstring -> option jsstring;
  trace : list event
}.

(** What the network answers to a request: no answer at all, or a status
    code with the parsed body. *)
Inductive http_outcome :=
| NetworkError (message : jsstring)
| Response (code : Z) (payload : value).

(** [react-webcam]: [getScreenshot()] is a [string | null]. *)
Record Webcam := { getScreenshot : option jsstring }.

(** What lies outside the component during one cycle. *)
Record World := {
  webcamRef : option Webcam;
  network : request -> http_outcome;
  typeErrorMessage : jsstring
}.

(** ** Effects *)

Inductive exn := Error (message : jsstring).

Inductive completion (A : Type) :=
| Normal (a : A)
| Throw (e : exn).
Arguments Normal {A} a.
Arguments Throw {A} e.

Definition M (A : Type) : Type := World -> Store -> completion A * Store.

Definition ret {A} (a : A) : M A := fun _ st => (Normal a, st).

Definition bind {A B} (c : M A) (k : A -> M B) : M B :=
  fun w st =>
    match c w st with
    | (Normal a, st') => k a w st'
    | (Throw e, st') => (Throw e, st')
    end.

(** [try { body } catch (e) { handler }]: what [body] did to the state
    before it threw stays done. *)
Definition try_catch {A} (body : M A) (handler : exn -> M A) : M A :=
  fun w st =>
    match body w st with
    | (Normal a, st') => (Normal a, st')
    | (Throw e, st') => handler e w st'
    end.

Notation "x <- c ;; k" := (bind c (fun x => k))
  (at level 61, c at next level, right associativity).
Notation "c ;; k" := (bind c (fun _ => k))
  (at level 61, right associativity).

(** The store once the pipeline's variables have become [r] and the calls
    [evs] have been made. *)
Definition after (st : Store) (r : RunState) (evs : list event) : Store :=
  {| run := r; settings := settings st; timerRef := timerRef st;
     cleanup := cleanup st; timers := timers st; next_timer := next_timer st;
     localStorage := localStorage st; trace := trace st ++ evs |}.

Definition with_run (f : RunState -> RunState) (e : event) : M unit :=
  fun _ st => (Normal tt, after st (f (run st)) [e]).

Definition put_status (s : jsstring) (r : RunState) : RunState :=
  {| capturing := capturing r; dotColor := dotColor r; answer := answer r;
     status := s |}.

Definition put_answer (v : value) (r : RunState) : RunState :=
  {| capturing := capturing r; dotColor := dotColor r; answer := v;
     status := status r |}.

Definition put_capturing (b : bool) (r : RunState) : RunState :=
  {| capturing := b; dotColor := dotColor r; answer := answer r;
     status := status r |}.

Definition put_dotColor (s : jsstring) (r : RunState) : RunState :=
  {| capturing := capturing r; dotColor := s; answer := answer r;
     status := status r |}.

Definition setStatus (s : jsstring) : M unit := with_run (put_status s) (SetStatus s).

Definition setAnswer (v : value) : M unit := with_run (put_answer v) (SetAnswer v).

Definition setCapturing (b : bool) : M unit := with_run (put_capturing b) (SetCapturing b).

Definition setDotColor (s : jsstring) : M unit := with_run (put_dotColor s) (SetDotColor s).

(** [webcamRef.current.getScreenshot()] *)
Definition call_getScreenshot (cam : Webcam) : M (option jsstring) :=
  with_run (fun r => r) GetScreenshot ;; ret (getScreenshot cam).

Record AxiosResponse := { data : value }.

Definition decimal (z : Z) : jsstring :=
  js (DecimalString.NilZero.string_of_int (Z.to_int z)).

(** [validateStatus] of axios, by default. *)
Definition is_2xx (code : Z) : bool := (200 <=? code) && (code <? 300).

(** [axios.post(url, data, { headers })] with the library's defaults: the
    promise resolves for a 2xx status and rejects otherwise. *)
Definition axios_post (url : jsstring) (d : body)
    (headers : list (jsstring * jsstring)) : M AxiosResponse :=
  let r := {| req_url := url; req_data := d; req_headers := headers |} in
  with_run (fun s => s) (AxiosPost r) ;;
  fun w st =>
    match network w r with
    | NetworkError m => (Throw (Error m), st)
    | Response code payload =>
        if is_2xx code
        then (Normal {| data := payload |}, st)
        else (Throw (Error (js "Request failed with status code " ++ decimal code)), st)
    end.

(** [v.k]: a [TypeError] on [null] and [undefined]. *)
Definition get_property (v : value) (k : jsstring) : M value :=
  fun w st =>
    if nullish v then (Throw (Error (typeErrorMessage w)), st)
    else (Normal (property v k), st).

(** [v?.trim()]: [undefined] on [null] and [undefined], the trimmed string
    on a string, and a [TypeError] on anything else, whose [trim] is either
    absent or, in a parsed body, not a function. *)
Definition opt_call_trim (v : value) : M value :=
  fun w st =>
    match v with
    | VUndefined | VNull => (Normal VUndefined, st)
    | VStr s => (Normal (VStr (trim s)), st)
    | _ => (Throw (Error (typeErrorMessage w)), st)
    end.

(** ** [App.tsx] *)

Definition DEFAULT_PROMPT : jsstring :=
  js "You are a multiple-choice answering assistant. Read the following question and options, and answer with only the correct option letter (e.g., A, B, C, or D).".

Definition DEFAULT_INTERVAL : number := num_of_Z 40.

Definition OCR_URL : jsstring := js "https://api.ocr.space/parse/image".
Definition OPENAI_URL : jsstring := js "https://api.openai.com/v1/chat/completions".

Definition API_ERROR : jsstring := js "API Error".

(** The functions below are closures of one render: [cfg] holds the
    [openAiKey], [ocrKey] and [prompt] they closed over. *)

(** The form [doOcr] builds with its four [append] calls. *)
Definition ocr_form (key imageBase64 : jsstring) : list (jsstring * jsstring) :=
  [ (js "base64Image", imageBase64);
    (js "apikey", key);
    (js "language", js "eng");
    (js "isTable", js "false") ].

(** [response.data?.ParsedResults?.[0]?.ParsedText] *)
Definition parsed_text (payload : value) : value :=
  payload ?. "ParsedResults" ?. "0" ?. "ParsedText".

(** [async function doOcr(imageBase64)] *)
Definition doOcr (cfg : Settings) (imageBase64 : jsstring) : M value :=
  try_catch
    (response <- axios_post OCR_URL (FormData (ocr_form (ocrKey cfg) imageBase64)) [] ;;
     let parsedText := parsed_text (data response) in
     ret (js_or parsedText (VStr (js ""))))
    (fun _ =>
       setStatus (js "OCR failed") ;;
       ret (VStr (js ""))).

(** The JSON body of the chat request. *)
Definition chat_body (system : jsstring) (question : value) : value :=
  VObj
    [ (js "model", VStr (js "gpt-3.5-turbo"));
      (js "messages",
       VArr
         [ VObj [ (js "role", VStr (js "system")); (js "content", VStr system) ];
           VObj [ (js "role", VStr (js "user")); (js "content", question) ] ]);
      (js "max_tokens", VNum (num_of_Z 5)) ].

(** [{ headers: { Authorization: `Bearer ${key}` } }] *)
Definition chat_headers (key : jsstring) : list (jsstring * jsstring) :=
  [ (js "Authorization", js "Bearer " ++ key) ].

(** [choices?.[0]?.message?.content] *)
Definition first_content (choices : value) : value :=
  choices ?. "0" ?. "message" ?. "content".

(** [async function askOpenAI(question)] *)
Definition askOpenAI (cfg : Settings) (question : value) : M value :=
  try_catch
    (res <- axios_post OPENAI_URL (Json (chat_body (prompt cfg) question))
              (chat_headers (openAiKey cfg)) ;;
     choices <- get_property (data res) (js "choices") ;;
     trimmed <- opt_call_trim (first_content choices) ;;
     ret (js_or trimmed (VStr (js ""))))
    (fun _ =>
       setStatus (js "OpenAI failed") ;;
       ret (VStr API_ERROR)).

(** A [string | null] as a value. *)
Definition of_nullable (o : option jsstring) : value :=
  match o with
  | Some s => VStr s
  | None => VNull
  end.

(** [const captureAndProcess = async () => ...]: one cycle. *)
Definition captureAndProcess (cfg : Settings) : M unit :=
  if negb (truthy (VStr (openAiKey cfg))) || negb (truthy (VStr (ocrKey cfg))) then
    setStatus (js "Enter API keys in settings") ;;
    setCapturing false ;;
    ret tt
  else
    setStatus (js "Capturing...") ;;
    fun w =>
      match webcamRef w with
      | Some cam =>
          (imageSrc <- call_getScreenshot cam ;;
           match imageSrc with
           | Some src =>
               if truthy (of_nullable imageSrc) then
                 setStatus (js "Extracting text...") ;;
                 text <- doOcr cfg src ;;
                 if negb (truthy text) then
                   setStatus (js "No text found.") ;;
                   setAnswer (VStr (js "")) ;;
                   ret tt
                 else
                   setStatus (js "Getting answer...") ;;
                   aiAnswer <- askOpenAI cfg text ;;
                   setStatus (js "Complete") ;;
                   setAnswer aiAnswer
               else setStatus (js "Camera failed.")
           | None => setStatus (js "Camera failed.")
           end) w
      | None => ret tt w
      end.

(** *** The [useEffect] of the component and the timers it drives *)

Definition set_timers (ref : option nat) (ts : list timer) (n : nat) : M unit :=
  fun _ st =>
    (Normal tt,
     {| run := run st; settings := settings st; timerRef := ref;
        cleanup := cleanup st; timers := ts; next_timer := n;
        localStorage := localStorage st; trace := trace st |}).

Definition set_cleanup (c : bool) : M unit :=
  fun _ st =>
    (Normal tt,
     {| run := run st; settings := settings st; timerRef := timerRef st;
        cleanup := c; timers := timers st; next_timer := next_timer st;
        localStorage := localStorage st; trace := trace st |}).

(** [clearInterval(id)] *)
Definition clearInterval (id : nat) : M unit :=
  fun w st =>
    set_timers (timerRef st)
      (filter (fun t => negb (Nat.eqb (timer_id t) id)) (timers st))
      (next_timer st) w st.

(** [if (timerRef.current) clearInterval(timerRef.current)] *)
Definition clear_current : M unit :=
  fun w st =>
    match timerRef st with
    | Some id => clearInterval id w st
    | None => (Normal tt, st)
    end.

(** [timerRef.current = setInterval(captureAndProcess, ms)] *)
Definition setInterval_current (cfg : Settings) (ms : number) : M unit :=
  fun w st =>
    let id := next_timer st in
    set_timers (Some id)
      (timers st ++ [ {| timer_id := id; timer_delay := ms; timer_closure := cfg |} ])
      (S id) w st.

(** A call whose promise nobody awaits: a rejection is dropped.  The call
    is run to its end here; in the browser what follows it runs while the
    call is suspended at an [await], and writes other parts of the store.
    A stop, an edit or a timer that arrives while a cycle is suspended is
    therefore not represented: the statements below that speak of the
    status or the answer after such an event are about cycles that have
    ended. *)
Definition fire (c : M unit) : M unit :=
  fun w st => (Normal tt, snd (c w st)).

(** The function given to [useEffect]; the result tells whether it
    returned a clean-up function. *)
Definition effect : M bool :=
  fun w st =>
    let cfg := settings st in
    (if capturing (run st) then
       setDotColor (js "green") ;;
       fire (captureAndProcess cfg) ;;
       setInterval_current cfg (SFmul prec emax (interval cfg) (num_of_Z 1000)) ;;
       ret true
     else
       setDotColor (js "red") ;;
       clear_current ;;
       setStatus (js "Idle") ;;
       ret false) w st.

(** React, when a dependency of the effect changed: the clean-up the last
    run returned, [() => { if (timerRef.current) clearInterval(...) }],
    then the effect again. *)
Definition commit : M unit :=
  fun w st =>
    ((if cleanup st then clear_current else ret tt) ;;
     c <- effect ;;
     set_cleanup c) w st.

(** [onClick={() => setCapturing(true)}] of the Start button, followed by
    the renders it causes: [capturing] is a dependency of the effect, so the
    effect runs, and runs once more when the cycle it started has put
    [capturing] back to [false]. *)
Definition clickStart : M unit :=
  fun w st =>
    if capturing (run st) then (Normal tt, st) (* [disabled={capturing}] *)
    else
      (setCapturing true ;;
       commit ;;
       fun w' st' => if capturing (run st') then (Normal tt, st') else commit w' st') w st.

(** [onClick={() => setCapturing(false)}] of the Stop button. *)
Definition clickStop : M unit :=
  fun w st =>
    if capturing (run st) then (setCapturing false ;; commit) w st
    else (Normal tt, st). (* [disabled={!capturing}] *)

(** One firing of the timer [id]: the callback it was given runs, and the
    effect runs again when the callback has changed [capturing]. *)
Definition tick (id : nat) : M unit :=
  fun w st =>
    match find (fun t => Nat.eqb (timer_id t) id) (timers st) with
    | Some t =>
        (fire (captureAndProcess (timer_closure t)) ;;
         fun w' st' =>
           if Bool.eqb (capturing (run st')) (capturing (run st))
           then (Normal tt, st') else commit w' st') w st
    | None => (Normal tt, st)
    end.

(** *** Settings *)

(** [localStorage.getItem(k) || d] *)
Definition item_or (o : option jsstring) (d : jsstring) : jsstring :=
  match o with
  | Some (c :: r) => c :: r
  | _ => d
  end.

(** [Number(localStorage.getItem("interval") || DEFAULT_INTERVAL)]:
    [Number] of a string parses it, [Number] of a number is that number. *)
Definition initial_interval (o : option jsstring) : number :=
  match o with
  | Some (c :: r) => StringToNumber (c :: r)
  | _ => DEFAULT_INTERVAL
  end.

(** The initial values of the [useState] calls. *)
Definition initial_settings (storage : jsstring -> option jsstring) : Settings :=
  {| settingsOpen := false;
     openAiKey := item_or (storage (js "openaiKey")) (js "");
     ocrKey := item_or (storage (js "ocrKey")) (js "");
     prompt := item_or (storage (js "customPrompt")) DEFAULT_PROMPT;
     interval := initial_interval (storage (js "interval")) |}.

Definition initial_run : RunState :=
  {| capturing := false; dotColor := js "red"; answer := VStr (js "");
     status := js "Idle" |}.

(** The component before its first effect. *)
Definition initial (storage : jsstring -> option jsstring) : Store :=
  {| run := initial_run; settings := initial_settings storage; timerRef := None;
     cleanup := false; timers := []; next_timer := 1%nat;
     localStorage := storage; trace := [] |}.

(** The component once mounted: the effect has run for the first time. *)
Definition mount (w : World) (storage : jsstring -> option jsstring) : Store :=
  snd (commit w (initial storage)).

Definition set_settings (f : Settings -> Settings) : M unit :=
  fun _ st =>
    (Normal tt,
     {| run := run st; settings := f (settings st); timerRef := timerRef st;
        cleanup := cleanup st; timers := timers st; next_timer := next_timer st;
        localStorage := localStorage st; trace := trace st |}).

Definition same_number (a b : number) : bool :=
  match a, b with
  | S754_zero s, S754_zero s' => Bool.eqb s s'
  | S754_infinity s, S754_infinity s' => Bool.eqb s s'
  | S754_nan, S754_nan => true
  | S754_finite s m e, S754_finite s' m' e' =>
      Bool.eqb s s' && Pos.eqb m m' && Z.eqb e e'
  | _, _ => false
  end.

(** A state setter of the dialog, then the effect when the value it set,
    a dependency of the effect, is a new one; the effect runs once more
    when the cycle it started has changed [capturing]. *)
Definition set_dependency (changed : bool) (f : Settings -> Settings) : M unit :=
  set_settings f ;;
  if changed then
    fun w st =>
      (commit ;;
       fun w' st' =>
         if Bool.eqb (capturing (run st')) (capturing (run st))
         then (Normal tt, st') else commit w' st') w st
  else ret tt.

(** [onChange={e => setOpenAiKey(e.target.value)}] *)
Definition changeOpenAiKey (text : jsstring) : M unit :=
  fun w st =>
    set_dependency (negb (jseqb (openAiKey (settings st)) text))
      (fun c => {| settingsOpen := settingsOpen c; openAiKey := text;
                   ocrKey := ocrKey c; prompt := prompt c; interval := interval c |})
      w st.

(** [onChange={e => setOcrKey(e.target.value)}] *)
Definition changeOcrKey (text : jsstring) : M unit :=
  fun w st =>
    set_dependency (negb (jseqb (ocrKey (settings st)) text))
      (fun c => {| settingsOpen := settingsOpen c; openAiKey := openAiKey c;
                   ocrKey := text; prompt := prompt c; interval := interval c |})
      w st.

(** [onChange={e => setPrompt(e.target.value)}] *)
Definition changePrompt (text : jsstring) : M unit :=
  fun w st =>
    set_dependency (negb (jseqb (prompt (settings st)) text))
      (fun c => {| settingsOpen := settingsOpen c; openAiKey := openAiKey c;
                   ocrKey := ocrKey c; prompt := text; interval := interval c |})
      w st.

(** [onChange={e => setIntervalState(Number(e.target.value))}] *)
Definition changeInterval (text : jsstring) : M unit :=
  fun w st =>
    let n := StringToNumber text in
    set_dependency (negb (same_number (interval (settings st)) n))
      (fun c => {| settingsOpen := settingsOpen c; openAiKey := openAiKey c;
                   ocrKey := ocrKey c; prompt := prompt c; interval := n |})
      w st.

(** [const openSettings = () => setSettingsOpen(true)] *)
Definition openSettings : M unit :=
  set_settings
    (fun c => {| settingsOpen := true; openAiKey := openAiKey c;
                 ocrKey := ocrKey c; prompt := prompt c; interval := interval c |}).

(** [localStorage.setItem(k, v)] *)
Definition setItem (k v : jsstring) : M unit :=
  fun _ st =>
    (Normal tt,
     {| run := run st; settings := settings st; timerRef := timerRef st;
        cleanup := cleanup st; timers := timers st; next_timer := next_timer st;
        localStorage := fun k' => if jseqb k' k then Some v else localStorage st k';
        trace := trace st |}).

Section Save.

(** [Number.prototype.toString]: the decimal text of a number. *)
Variable toString : number -> jsstring.

(** [const saveSettings = () => ...] *)
Definition saveSettings : M unit :=
  fun w st =>
    let c := settings st in
    (setItem (js "openaiKey") (trim (openAiKey c)) ;;
     setItem (js "ocrKey") (trim (ocrKey c)) ;;
     setItem (js "customPrompt") (prompt c) ;;
     setItem (js "interval") (toString (interval c)) ;;
     set_settings
       (fun c => {| settingsOpen := false; openAiKey := openAiKey c;
                    ocrKey := ocrKey c; prompt := prompt c; interval := interval c |}))
      w st.

End Save.

(** ** The capture cycle of the previous revision

    The revision before [App.tsx] kept the keys in component state only and
    checked them inside the two clients; its cycle is the one [App.tsx]
    was rewritten from. *)

Module Rev2.

Definition PROMPT : jsstring := DEFAULT_PROMPT.

Definition message (e : exn) : jsstring :=
  match e with Error m => m end.

(** [async function doOcr(imageBase64)] *)
Definition doOcr (cfg : Settings) (imageBase64 : jsstring) : M value :=
  if negb (truthy (VStr (ocrKey cfg))) then
    setStatus (js "OCR key not set.") ;;
    ret (VStr (js ""))
  else
    try_catch
      (response <- axios_post OCR_URL (FormData (ocr_form (ocrKey cfg) imageBase64)) [] ;;
       let parsedText := parsed_text (data response) in
       ret (js_or parsedText (VStr (js ""))))
      (fun e =>
         setStatus (js "OCR failed: " ++ message e) ;;
         ret (VStr (js ""))).

(** [async function askOpenAI(question)] *)
Definition askOpenAI (cfg : Settings) (question : value) : M value :=
  if negb (truthy (VStr (openAiKey cfg))) then
    setStatus (js "OpenAI key not set.") ;;
    ret (VStr (js ""))
  else
    try_catch
      (res <- axios_post OPENAI_URL (Json (chat_body PROMPT question))
                (chat_headers (openAiKey cfg)) ;;
       choices <- get_property (data res) (js "choices") ;;
       trimmed <- opt_call_trim (first_content choices) ;;
       ret (js_or trimmed (VStr (js ""))))
      (fun e =>
         setStatus (js "OpenAI failed: " ++ message e) ;;
         ret (VStr API_ERROR)).

(** [v.trim()]: the trimmed string on a string, a [TypeError] otherwise. *)
Definition call_trim (v : value) : M value :=
  fun w st =>
    match v with
    | VStr s => (Normal (VStr (trim s)), st)
    | _ => (Throw (Error (typeErrorMessage w)), st)
    end.

(** [webcamRef.current?.getScreenshot() || null] *)
Definition screenshot_or_null : M (option jsstring) :=
  fun w =>
    match webcamRef w with
    | Some cam =>
        (shot <- call_getScreenshot cam ;;
         ret (match shot with
              | Some (c :: r) => Some (c :: r)
              | _ => None
              end)) w
    | None => ret None w
    end.

(** [const captureAndProcess = async () => ...] *)
Definition captureAndProcess (cfg : Settings) : M unit :=
  setStatus (js "Capturing...") ;;
  try_catch
    (imageSrc <- screenshot_or_null ;;
     match imageSrc with
     | None =>
         setStatus (js "Camera not ready or failed to capture image.") ;;
         setAnswer (VStr (js "")) ;;
         ret tt
     | Some src =>
         setStatus (js "Extracting text...") ;;
         text <- doOcr cfg src ;;
         trimmed <- call_trim text ;;
         if negb (truthy trimmed) then
           setStatus (js "No text found.") ;;
           setAnswer (VStr (js "")) ;;
           ret tt
         else
           setStatus (js "Getting answer...") ;;
           aiAnswer <- askOpenAI cfg text ;;
           setStatus (js "Complete") ;;
           setAnswer aiAnswer
     end)
    (fun err =>
       setStatus (js "Error: " ++ message err) ;;
       setAnswer (VStr (js ""))).

End Rev2.

(** ** Reading a trace *)

(** The requests sent, in order. *)
Fixpoint posts (t : list event) : list request :=
  match t with
  | [] => []
  | AxiosPost r :: t' => r :: posts t'
  | _ :: t' => posts t'
  end.

(** The status line's successive texts. *)
Fixpoint statuses (t : list event) : list jsstring :=
  match t with
  | [] => []
  | SetStatus s :: t' => s :: statuses t'
  | _ :: t' => statuses t'
  end.

(** The phrases of the four stages of a cycle. *)
Definition stages : list jsstring :=
  [ js "Capturing..."; js "Extracting text..."; js "Getting answer..."; js "Complete" ].

Definition is_stage (s : jsstring) : bool := existsb (jseqb s) stages.

(** The request [doOcr] sends for a frame. *)
Definition ocr_request (cfg : Settings) (src : jsstring) : request :=
  {| req_url := OCR_URL;
     req_data := FormData (ocr_form (ocrKey cfg) src);
     req_headers := [] |}.

(** The request [askOpenAI] sends for a question. *)
Definition chat_request (cfg : Settings) (question : value) : request :=
  {| req_url := OPENAI_URL;
     req_data := Json (chat_body (prompt cfg) question);
     req_headers := chat_headers (openAiKey cfg) |}.

(** The promise of [axios.post] rejects: no response, or a status outside
    2xx. *)
Definition rejects (o : http_outcome) : bool :=
  match o with
  | NetworkError _ => true
  | Response code _ => negb (is_2xx code)
  end.

Definition is_string (v : value) : bool :=
  match v with
  | VStr _ => true
  | _ => false
  end.

(** Both keys are set. *)
Definition has_keys (cfg : Settings) : bool :=
  truthy (VStr (openAiKey cfg)) && truthy (VStr (ocrKey cfg)).

(** The component at rest: no session, no clean-up pending, no timer. *)
Definition idle (st : Store) : bool :=
  negb (capturing (run st)) && negb (cleanup st)
  && match timers st with [] => true | _ => false end.

(** The timer a session starts. *)
Definition session_timer (st : Store) : timer :=
  {| timer_id := next_timer st;
     timer_delay := SFmul prec emax (interval (settings st)) (num_of_Z 1000);
     timer_closure := settings st |}.

(** ** Sample surroundings *)

(** A world whose webcam gives [shot] and whose two services answer [ocr]
    and [chat]. *)
Definition world_of (shot : option jsstring) (ocr chat : http_outcome) : World :=
  {| webcamRef := Some {| getScreenshot := shot |};
     network := fun r => if jseqb (req_url r) OCR_URL then ocr else chat;
     typeErrorMessage := js "TypeError" |}.

(** The body OCR.space sends for a recognised text. *)
Definition ocr_body (text : value) : value :=
  VObj [ (js "ParsedResults", VArr [ VObj [ (js "ParsedText", text) ] ]) ].

(** The body the chat service sends for an answer. *)
Definition chat_reply (content : value) : value :=
  VObj [ (js "choices",
          VArr [ VObj [ (js "message",
                        VObj [ (js "role", VStr (js "assistant"));
                               (js "content", content) ]) ] ]) ].

Definition sample_frame : jsstring := js "data:image/png;base64,iVBORw0KGgo=".

Definition sample_question : jsstring :=
  js "Which planet is closest to the sun? A) Venus B) Mercury C) Earth D) Mars".

Definition sample_settings : Settings :=
  {| settingsOpen := false; openAiKey := js "sk-sample"; ocrKey := js "K8-sample";
     prompt := DEFAULT_PROMPT; interval := DEFAULT_INTERVAL |}.

(** Storage as [saveSettings] leaves it for the sample settings. *)
Definition sample_storage (k : jsstring) : option jsstring :=
  if jseqb k (js "openaiKey") then Some (js "sk-sample")
  else if jseqb k (js "ocrKey") then Some (js "K8-sample")
  else None.

Definition empty_storage (k : jsstring) : option jsstring := None.

(** ** The session of the previous revision

    In the revision before [App.tsx] the effect depends on [capturing]
    only, the interval is a constant, and the two keys are plain state
    variables of the settings panel. *)

Module Rev2App.

(** [const CAPTURE_INTERVAL = 40 * 1000] *)
Definition CAPTURE_INTERVAL : number :=
  SFmul prec emax (num_of_Z 40) (num_of_Z 1000).

(** The function given to [useEffect]. *)
Definition effect : M bool :=
  fun w st =>
    let cfg := settings st in
    (if capturing (run st) then
       setDotColor (js "green") ;;
       fire (Rev2.captureAndProcess cfg) ;;
       setInterval_current cfg CAPTURE_INTERVAL ;;
       ret true
     else
       setDotColor (js "red") ;;
       clear_current ;;
       setStatus (js "Idle") ;;
       ret false) w st.

(** React, when [capturing] changed: the clean-up, then the effect. *)
Definition commit : M unit :=
  fun w st =>
    ((if cleanup st then clear_current else ret tt) ;;
     c <- effect ;;
     set_cleanup c) w st.

(** The Start button. *)
Definition clickStart : M unit :=
  fun w st =>
    if capturing (run st) then (Normal tt, st)
    else
      (setCapturing true ;;
       commit ;;
       fun w' st' => if capturing (run st') then (Normal tt, st') else commit w' st') w st.

(** The Stop button. *)
Definition clickStop : M unit :=
  fun w st =>
    if capturing (run st) then (setCapturing false ;; commit) w st
    else (Normal tt, st).

(** [onChange={e => setOcrKey(e.target.value)}]: the key is no dependency
    of the effect, which does not run. *)
Definition changeOcrKey (text : jsstring) : M unit :=
  set_settings
    (fun c => {| settingsOpen := settingsOpen c; openAiKey := openAiKey c;
                 ocrKey := text; prompt := prompt c; interval := interval c |}).

(** [onChange={e => setOpenaiKey(e.target.value)}] *)
Definition changeOpenaiKey (text : jsstring) : M unit :=
  set_settings
    (fun c => {| settingsOpen := settingsOpen c; openAiKey := text;
                 ocrKey := ocrKey c; prompt := prompt c; interval := interval c |}).

(** One firing of the timer [id]. *)
Definition tick (id : nat) : M unit :=
  fun w st =>
    match find (fun t => Nat.eqb (timer_id t) id) (timers st) with
    | Some t =>
        (fire (Rev2.captureAndProcess (timer_closure t)) ;;
         fun w' st' =>
           if Bool.eqb (capturing (run st')) (capturing (run st))
           then (Normal tt, st') else commit w' st') w st
    | None => (Normal tt, st)
    end.

(** The request [askOpenAI] sends there, with the constant prompt. *)
Definition chat_request (cfg : Settings) (question : value) : request :=
  {| req_url := OPENAI_URL;
     req_data := Json (chat_body Rev2.PROMPT question);
     req_headers := chat_headers (openAiKey cfg) |}.

End Rev2App.

(** ** Frames *)

(** A computation that, whatever it returns or throws, only sets
    variables of the pipeline other than [capturing] and makes calls: the
    settings, the timers and the storage are out of its reach. *)
Definition session_frame {A : Type} (c : M A) : Prop :=
  forall w st r evs,
    exists x r' evs',
      c w (after st r evs) = (x, after st r' (evs ++ evs')) /\
      capturing r' = capturing r.

(** ** Reasoning about stores *)

Arguments js : simpl never.

Lemma after_after st r evs r' evs' :
  after (after st r evs) r' evs' = after st r' (evs ++ evs').
Proof. unfold after; cbn. now rewrite app_assoc. Qed.

Lemma after_self st : after st (run st) [] = st.
Proof. destruct st; unfold after; cbn. now rewrite app_nil_r. Qed.

Lemma with_run_after f e w st r evs :
  with_run f e w (after st r evs) = (Normal tt, after st (f r) (evs ++ [e])).
Proof. unfold with_run. now rewrite after_after. Qed.

Lemma falsy_string (s : jsstring) : truthy (VStr s) = false <-> s = [].
Proof. destruct s; cbn; split; congruence. Qed.

Lemma truthy_string (s : jsstring) : truthy (VStr s) = true <-> s <> [].
Proof. destruct s; cbn; split; congruence. Qed.

Lemma js_or_string (s : jsstring) : js_or (VStr s) (VStr (js "")) = VStr s.
Proof. destruct s; reflexivity. Qed.

(** What [doOcr] does from any store: it posts the form, and either the
    post is rejected, which it reports and turns into the empty string, or
    it returns the parsed text (or the empty string in its place). *)
Lemma doOcr_after cfg src w st r evs :
  exists (text : value) (failed : bool),
    doOcr cfg src w (after st r evs) =
      (Normal text,
       after st (if failed then put_status (js "OCR failed") r else r)
         (evs ++ AxiosPost (ocr_request cfg src)
              :: if failed then [SetStatus (js "OCR failed")] else [])) /\
    failed = rejects (network w (ocr_request cfg src)) /\
    (failed = true -> text = VStr (js "")) /\
    (forall code payload,
        network w (ocr_request cfg src) = Response code payload ->
        is_2xx code = true ->
        text = js_or (parsed_text payload) (VStr (js ""))).
Proof.
  unfold doOcr, axios_post, setStatus, try_catch, bind, ret.
  rewrite with_run_after. fold (ocr_request cfg src).
  destruct (network w (ocr_request cfg src)) as [m | code payload] eqn:E; cbn [rejects].
  - rewrite with_run_after, <- app_assoc. cbn [app negb].
    eexists _, true. repeat split; try reflexivity. discriminate.
  - destruct (is_2xx code) eqn:C; cbn [negb].
    + eexists _, false. repeat split; try reflexivity; try discriminate.
      intros ? ? [= <- <-] _. reflexivity.
    + rewrite with_run_after, <- app_assoc. cbn [app].
      eexists _, true. repeat split; try reflexivity.
      intros ? ? [= <- <-]. congruence.
Qed.

(** What [askOpenAI] does from any store: it posts the chat request, and
    resolves to a string in every case.  [failed] tells whether the [catch]
    block ran. *)
Lemma askOpenAI_after cfg q w st r evs :
  exists (a : jsstring) (failed : bool),
    askOpenAI cfg q w (after st r evs) =
      (Normal (VStr a),
       after st (if failed then put_status (js "OpenAI failed") r else r)
         (evs ++ AxiosPost (chat_request cfg q)
              :: if failed then [SetStatus (js "OpenAI failed")] else [])) /\
    (failed = true -> a = API_ERROR) /\
    (rejects (network w (chat_request cfg q)) = true -> failed = true) /\
    (forall code payload,
        network w (chat_request cfg q) = Response code payload ->
        is_2xx code = true ->
        match first_content (property payload (js "choices")) with
        | VStr c => failed = false /\ a = trim c
        | VUndefined | VNull =>
            if nullish payload then failed = true
            else failed = false /\ a = js ""
        | _ => failed = true
        end).
Proof.
  unfold askOpenAI, axios_post, get_property, opt_call_trim, setStatus,
    try_catch, bind, ret.
  rewrite with_run_after. fold (chat_request cfg q).
  destruct (network w (chat_request cfg q)) as [m | code payload] eqn:E; cbn [rejects].
  - rewrite with_run_after, <- app_assoc. cbn [app].
    exists API_ERROR, true. repeat split; try reflexivity. discriminate.
  - destruct (is_2xx code) eqn:C; cbn [negb data].
    + destruct (nullish payload) eqn:N.
      * rewrite with_run_after, <- app_assoc. cbn [app].
        exists API_ERROR, true. repeat split; try reflexivity; try discriminate.
        intros ? ? [= <- <-] _. rewrite N.
        destruct payload; try discriminate N; reflexivity.
      * destruct (first_content (property payload (js "choices"))) as [| | b | n | c | l | l] eqn:F;
          try (rewrite with_run_after, <- app_assoc; cbn [app];
               exists API_ERROR, true; repeat split; try reflexivity; try discriminate;
               intros ? ? [= <- <-] _; rewrite F; reflexivity).
        -- exists (js ""), false. repeat split; try reflexivity; try discriminate.
           intros ? ? [= <- <-] _. rewrite F, N. auto.
        -- exists (js ""), false. repeat split; try reflexivity; try discriminate.
           intros ? ? [= <- <-] _. rewrite F, N. auto.
        -- exists (trim c), false. rewrite js_or_string.
           repeat split; try reflexivity; try discriminate.
           intros ? ? [= <- <-] _. rewrite F. auto.
    + rewrite with_run_after, <- app_assoc. cbn [app].
      exists API_ERROR, true. repeat split; try reflexivity.
      intros ? ? [= <- <-]. congruence.
Qed.

Lemma has_keys_test cfg :
  has_keys cfg = true ->
  negb (truthy (VStr (openAiKey cfg))) || negb (truthy (VStr (ocrKey cfg))) = false.
Proof.
  unfold has_keys. intros H. apply andb_prop in H as [H1 H2]. now rewrite H1, H2.
Qed.

Lemma has_keys_false cfg :
  has_keys cfg = false <-> openAiKey cfg = [] \/ ocrKey cfg = [].
Proof.
  unfold has_keys. rewrite andb_false_iff, !falsy_string. reflexivity.
Qed.

Lemma no_keys_test cfg :
  openAiKey cfg = [] \/ ocrKey cfg = [] ->
  negb (truthy (VStr (openAiKey cfg))) || negb (truthy (VStr (ocrKey cfg))) = true.
Proof.
  intros [H | H]; rewrite H; cbn; auto using orb_true_r.
Qed.

(** The cycle when a key is missing. *)
Lemma cycle_no_keys cfg w st r evs :
  openAiKey cfg = [] \/ ocrKey cfg = [] ->
  captureAndProcess cfg w (after st r evs) =
    (Normal tt,
     after st (put_capturing false (put_status (js "Enter API keys in settings") r))
       (evs ++ [SetStatus (js "Enter API keys in settings"); SetCapturing false])).
Proof.
  intros H. unfold captureAndProcess. rewrite (no_keys_test _ H).
  unfold setStatus, setCapturing, bind, ret.
  now rewrite !with_run_after, <- app_assoc.
Qed.

(** The cycle when the webcam component is not mounted. *)
Lemma cycle_no_ref cfg w st r evs :
  has_keys cfg = true -> webcamRef w = None ->
  captureAndProcess cfg w (after st r evs) =
    (Normal tt, after st (put_status (js "Capturing...") r)
                  (evs ++ [SetStatus (js "Capturing...")])).
Proof.
  intros K R. unfold captureAndProcess. rewrite (has_keys_test _ K).
  unfold setStatus, bind, ret. now rewrite with_run_after, R.
Qed.

(** The cycle when the webcam gives no frame. *)
Lemma cycle_no_frame cfg w st r evs cam :
  has_keys cfg = true -> webcamRef w = Some cam ->
  truthy (of_nullable (getScreenshot cam)) = false ->
  captureAndProcess cfg w (after st r evs) =
    (Normal tt, after st (put_status (js "Camera failed.") r)
                  (evs ++ [SetStatus (js "Capturing..."); GetScreenshot;
                           SetStatus (js "Camera failed.")])).
Proof.
  intros K R F. unfold captureAndProcess. rewrite (has_keys_test _ K).
  unfold call_getScreenshot, setStatus, bind, ret.
  rewrite with_run_after, R, with_run_after.
  destruct (getScreenshot cam) as [src |] eqn:G.
  - rewrite F, with_run_after, <- !app_assoc. reflexivity.
  - rewrite with_run_after, <- !app_assoc. reflexivity.
Qed.

(** The cycle when the webcam gives a frame: the two ways it can end. *)
Lemma cycle_frame cfg w st r evs cam src :
  has_keys cfg = true -> webcamRef w = Some cam ->
  getScreenshot cam = Some src -> src <> [] ->
  exists (text : value) (ocr_failed : bool),
    ocr_failed = rejects (network w (ocr_request cfg src)) /\
    (ocr_failed = true -> text = VStr (js "")) /\
    (forall code payload,
        network w (ocr_request cfg src) = Response code payload ->
        is_2xx code = true ->
        text = js_or (parsed_text payload) (VStr (js ""))) /\
    ((truthy text = false /\
      captureAndProcess cfg w (after st r evs) =
        (Normal tt,
         after st (put_answer (VStr (js "")) (put_status (js "No text found.") r))
           (evs ++ [SetStatus (js "Capturing..."); GetScreenshot;
                    SetStatus (js "Extracting text...");
                    AxiosPost (ocr_request cfg src)]
                ++ (if ocr_failed then [SetStatus (js "OCR failed")] else [])
                ++ [SetStatus (js "No text found."); SetAnswer (VStr (js ""))])))
     \/
     (truthy text = true /\ ocr_failed = false /\
      exists (a : jsstring) (ai_failed : bool),
        (ai_failed = true -> a = API_ERROR) /\
        (rejects (network w (chat_request cfg text)) = true -> ai_failed = true) /\
        (forall code payload,
            network w (chat_request cfg text) = Response code payload ->
            is_2xx code = true ->
            match first_content (property payload (js "choices")) with
            | VStr c => ai_failed = false /\ a = trim c
            | VUndefined | VNull =>
                if nullish payload then ai_failed = true
                else ai_failed = false /\ a = js ""
            | _ => ai_failed = true
            end) /\
        captureAndProcess cfg w (after st r evs) =
          (Normal tt,
           after st (put_answer (VStr a) (put_status (js "Complete") r))
             (evs ++ [SetStatus (js "Capturing..."); GetScreenshot;
                      SetStatus (js "Extracting text...");
                      AxiosPost (ocr_request cfg src);
                      SetStatus (js "Getting answer...");
                      AxiosPost (chat_request cfg text)]
                  ++ (if ai_failed then [SetStatus (js "OpenAI failed")] else [])
                  ++ [SetStatus (js "Complete"); SetAnswer (VStr a)])))).
Proof.
  intros K R G S. apply truthy_string in S.
  unfold captureAndProcess. rewrite (has_keys_test _ K).
  unfold call_getScreenshot, setStatus, setAnswer, bind, ret.
  rewrite with_run_after, R, with_run_after, G. cbn [of_nullable]. rewrite S.
  rewrite with_run_after.
  match goal with |- context [doOcr cfg src w (after st ?r' ?e')] =>
    destruct (doOcr_after cfg src w st r' e') as (text & failed & E & F & T & P)
  end.
  exists text, failed. rewrite E. split; [exact F|]. split; [exact T|]. split; [exact P|].
  destruct (truthy text) eqn:TT; cbn [negb].
  - right. assert (failed = false) as ->.
    { destruct failed; [|reflexivity]. rewrite (T eq_refl) in TT. discriminate. }
    split; [reflexivity|]. split; [reflexivity|].
    rewrite with_run_after.
    match goal with |- context [askOpenAI cfg text w (after st ?r' ?e')] =>
      destruct (askOpenAI_after cfg text w st r' e') as (a & af & E' & A1 & A2 & A3)
    end.
    exists a, af. rewrite E'. split; [exact A1|]. split; [exact A2|]. split; [exact A3|].
    rewrite !with_run_after. repeat rewrite <- app_assoc.
    destruct af; reflexivity.
  - left. split; [reflexivity|].
    rewrite !with_run_after. repeat rewrite <- app_assoc.
    destruct failed; reflexivity.
Qed.

(** Whatever the world, a cycle returns normally, and all it does to the
    store is to set the pipeline's variables and to make calls. *)
Lemma cycle_after cfg w st r evs :
  exists r' evs',
    captureAndProcess cfg w (after st r evs) = (Normal tt, after st r' (evs ++ evs')).
Proof.
  destruct (has_keys cfg) eqn:K.
  - destruct (webcamRef w) as [cam |] eqn:R.
    + destruct (truthy (of_nullable (getScreenshot cam))) eqn:T.
      * destruct (getScreenshot cam) as [src |] eqn:G; [|discriminate T].
        apply truthy_string in T.
        destruct (cycle_frame cfg w st r evs cam src K R G T)
          as (text & f & _ & _ & _ & [[_ E] | (_ & _ & a & af & _ & _ & _ & E)]);
          rewrite E; eauto.
      * rewrite (cycle_no_frame cfg w st r evs cam K R T). eauto.
    + rewrite (cycle_no_ref cfg w st r evs K R). eauto.
  - apply has_keys_false in K. rewrite (cycle_no_keys cfg w st r evs K). eauto.
Qed.

Lemma posts_app t u : posts (t ++ u) = posts t ++ posts u.
Proof.
  induction t as [| e t IH]; [reflexivity|].
  destruct e; cbn; rewrite IH; reflexivity.
Qed.

Lemma statuses_app t u : statuses (t ++ u) = statuses t ++ statuses u.
Proof.
  induction t as [| e t IH]; [reflexivity|].
  destruct e; cbn; rewrite IH; reflexivity.
Qed.

(** A lemma about [st] from the same lemma about [after st (run st) []]. *)
Ltac from_here st := rewrite <- (after_self st) at 1.

(** *** Sessions *)

Lemma idle_inv st :
  idle st = true -> capturing (run st) = false /\ cleanup st = false /\ timers st = [].
Proof.
  unfold idle. destruct (capturing (run st)), (cleanup st), (timers st);
    cbn; intros H; try discriminate; auto.
Qed.

(** Starting a session from rest: the cycle runs inside the click's own
    effect, before the timer it registers can fire. *)
Lemma start_after w st :
  idle st = true ->
  exists r' evs,
    captureAndProcess (settings st) w
      (after st (put_dotColor (js "green") (put_capturing true (run st)))
         [SetCapturing true; SetDotColor (js "green")]) =
      (Normal tt,
       after st r' ([SetCapturing true; SetDotColor (js "green")] ++ evs)) /\
    ((capturing r' = true /\
      exists st',
        clickStart w st = (Normal tt, st') /\
        run st' = r' /\
        trace st' = trace st ++ [SetCapturing true; SetDotColor (js "green")] ++ evs /\
        timers st' = [session_timer st] /\
        timerRef st' = Some (next_timer st) /\
        cleanup st' = true /\
        settings st' = settings st)
     \/
     (capturing r' = false /\
      exists st',
        clickStart w st = (Normal tt, st') /\
        run st' = put_status (js "Idle") (put_dotColor (js "red") r') /\
        trace st' = trace st ++ [SetCapturing true; SetDotColor (js "green")] ++ evs
                      ++ [SetDotColor (js "red"); SetStatus (js "Idle")] /\
        timers st' = [] /\
        settings st' = settings st)).
Proof.
  intros I. apply idle_inv in I as (C & L & T).
  destruct (cycle_after (settings st) w st
              (put_dotColor (js "green") (put_capturing true (run st)))
              [SetCapturing true; SetDotColor (js "green")]) as (r' & evs & E).
  exists r', evs. split; [exact E|].
  assert (S1 : exists st1,
             commit w (after st (put_capturing true (run st)) [SetCapturing true]) =
               (Normal tt, st1) /\
             run st1 = r' /\
             trace st1 = trace st ++ [SetCapturing true; SetDotColor (js "green")] ++ evs /\
             timers st1 = [session_timer st] /\
             timerRef st1 = Some (next_timer st) /\
             settings st1 = settings st /\
             cleanup st1 = true /\ next_timer st1 = S (next_timer st) /\
             localStorage st1 = localStorage st).
  { unfold commit. cbn [cleanup after]. rewrite L.
    unfold bind, ret, effect. cbn [run after capturing put_capturing settings].
    unfold setDotColor, bind, fire, ret. rewrite with_run_after. cbn [app].
    rewrite E. cbn [snd].
    unfold setInterval_current, set_timers, set_cleanup.
    cbn [after run settings timerRef cleanup timers next_timer localStorage trace].
    eexists. split; [reflexivity|]. cbn. rewrite T. repeat split. }
  destruct S1 as (st1 & E1 & R1 & T1 & M1 & F1 & G1 & L1 & N1 & O1).
  assert (S2 : clickStart w st =
               if capturing r' then (Normal tt, st1) else commit w st1).
  { unfold clickStart. rewrite C.
    unfold setCapturing, bind. unfold with_run at 1. now rewrite E1, R1. }
  rewrite S2. clear S2.
  destruct (capturing r') eqn:C'.
  - left. split; [reflexivity|]. exists st1. repeat split; assumption.
  - right. split; [reflexivity|]. unfold commit. rewrite L1.
    unfold bind, clear_current, clearInterval, set_timers, effect.
    cbn [timerRef timers run next_timer settings cleanup localStorage trace].
    rewrite F1. cbn [timerRef timers run next_timer settings cleanup localStorage trace].
    rewrite R1, C'. unfold setDotColor, setStatus, bind, ret, clear_current, clearInterval,
      set_timers, set_cleanup, with_run, after.
    cbn [timerRef timers run next_timer settings cleanup localStorage trace].
    rewrite M1. cbn [app filter timer_id session_timer]. rewrite Nat.eqb_refl. cbn [negb filter].
    eexists. split; [reflexivity|]. cbn. rewrite T1, G1, <- !app_assoc. repeat split.
Qed.

(** The component is at rest once mounted. *)
Lemma mount_idle w storage :
  idle (mount w storage) = true /\ status (run (mount w storage)) = js "Idle".
Proof. split; reflexivity. Qed.

(** Stopping a session that was started at rest, the cycle of the start
    having ended, brings the component back to rest: the timer is cleared
    and the status reads "Idle". *)
Lemma stop_returns_to_rest w w' st st' :
  idle st = true ->
  clickStart w st = (Normal tt, st') ->
  capturing (run st') = true ->
  exists st'',
    clickStop w' st' = (Normal tt, st'') /\
    idle st'' = true /\
    status (run st'') = js "Idle" /\
    timers st'' = [].
Proof.
  intros I E C.
  destruct (start_after w st I) as (r' & evs & _ & S).
  destruct S as [(_ & s1 & E1 & R1 & _ & M1 & F1 & L1 & _) | (C' & s1 & E1 & R1 & _)].
  - rewrite E in E1. injection E1 as <-.
    unfold clickStop. rewrite C.
    unfold setCapturing, bind, with_run, commit. cbn [cleanup after]. rewrite L1.
    unfold bind, clear_current, clearInterval, set_timers, effect.
    cbn [timerRef timers run next_timer settings cleanup localStorage trace after
         capturing put_capturing].
    rewrite F1, M1. cbn [filter timer_id session_timer]. rewrite Nat.eqb_refl.
    cbn [negb timerRef timers run next_timer settings cleanup localStorage trace
         capturing put_capturing].
    unfold setDotColor, setStatus, bind, ret, clear_current, clearInterval,
      set_timers, set_cleanup, with_run, after.
    cbn [timerRef timers run next_timer settings cleanup localStorage trace filter].
    eexists. split; [reflexivity|]. repeat split.
  - rewrite E in E1. injection E1 as <-. rewrite R1 in C.
    cbn [capturing put_status put_dotColor] in C. congruence.
Qed.

Lemma js_or_truthy v d : truthy v = true -> js_or v d = v.
Proof. unfold js_or. now intros ->. Qed.

(** With both keys set, a cycle leaves the session running, and its
    status goes through the stages in order as far as the cycle gets. *)
Lemma cycle_with_keys cfg w st r evs :
  has_keys cfg = true ->
  exists (s : jsstring) (a : value) (evs' : list event) (n : nat),
    captureAndProcess cfg w (after st r evs) =
      (Normal tt, after st (put_answer a (put_status s r)) (evs ++ evs')) /\
    (1 <= n)%nat /\
    filter is_stage (statuses evs') = firstn n stages /\
    (forall cam src code payload,
        webcamRef w = Some cam -> getScreenshot cam = Some src -> src <> [] ->
        network w (ocr_request cfg src) = Response code payload ->
        is_2xx code = true -> truthy (parsed_text payload) = true ->
        n = 4%nat).
Proof.
  intros K.
  destruct (webcamRef w) as [cam |] eqn:R.
  - destruct (truthy (of_nullable (getScreenshot cam))) eqn:T.
    + destruct (getScreenshot cam) as [src |] eqn:G; [|discriminate T].
      apply truthy_string in T.
      destruct (cycle_frame cfg w st r evs cam src K R G T)
        as (text & f & _ & _ & P & [[TT E] | (_ & _ & a & af & _ & _ & _ & E)]).
      * exists (js "No text found."), (VStr (js "")); eexists; exists 2%nat.
        split; [exact E|]. split; [auto|]. split.
        { destruct f; reflexivity. }
        intros cam' src' code payload R' G' _ N C TP.
        assert (cam' = cam) by congruence. subst cam'.
        assert (src' = src) by congruence. subst src'.
        rewrite (P _ _ N C), (js_or_truthy _ _ TP) in TT. congruence.
      * exists (js "Complete"), (VStr a); eexists; exists 4%nat.
        split; [exact E|]. split; [auto|]. split; [|reflexivity].
        destruct af; reflexivity.
    + rewrite (cycle_no_frame cfg w st r evs cam K R T).
      exists (js "Camera failed."), (answer r); eexists; exists 1%nat.
      split; [reflexivity|]. split; [auto|]. split; [reflexivity|].
      intros cam' src code payload R' G S.
      assert (cam' = cam) by congruence. subst cam'.
      rewrite G in T. cbn [of_nullable] in T.
      apply truthy_string in S. congruence.
  - rewrite (cycle_no_ref cfg w st r evs K R).
    exists (js "Capturing..."), (answer r); eexists; exists 1%nat.
    split; [reflexivity|]. split; [auto|]. split; [reflexivity|]. discriminate.
Qed.


Lemma after_inj st r evs r' evs' :
  after st r evs = after st r' evs' -> r = r' /\ evs = evs'.
Proof.
  unfold after. intros [= -> H]. split; [reflexivity|].
  now apply app_inv_head in H.
Qed.

(** A cycle from [st], from the same cycle seen from [after st (run st) []]. *)
Lemma cycle_here cfg w st :
  captureAndProcess cfg w st = captureAndProcess cfg w (after st (run st) []).
Proof. now rewrite after_self. Qed.

(** The answer shown is a string after a cycle if it was one before: what
    [askOpenAI] resolves to is a string in every case. *)
Lemma answer_stays_string cfg w st :
  is_string (answer (run st)) = true ->
  is_string (answer (run (snd (captureAndProcess cfg w st)))) = true.
Proof.
  intros A. rewrite cycle_here.
  destruct (has_keys cfg) eqn:K.
  - destruct (webcamRef w) as [cam |] eqn:R.
    + destruct (truthy (of_nullable (getScreenshot cam))) eqn:T.
      * destruct (getScreenshot cam) as [src |] eqn:G; [|discriminate T].
        apply truthy_string in T.
        destruct (cycle_frame cfg w st (run st) [] cam src K R G T)
          as (text & f & _ & _ & _ & [[_ E] | (_ & _ & a & af & _ & _ & _ & E)]);
          rewrite E; reflexivity.
      * rewrite (cycle_no_frame cfg w st _ _ cam K R T). exact A.
    + rewrite (cycle_no_ref cfg w st _ _ K R). exact A.
  - apply has_keys_false in K. rewrite (cycle_no_keys cfg w st _ _ K). exact A.
Qed.

(** ** The cycle, stage by stage *)

(** C3. A cycle started with the OCR key or the completion key empty sets
    the status to "Enter API keys in settings", sets [capturing] to [false]
    and returns: it asks the webcam for nothing and sends no request.  A
    session started at rest with such settings is over at once: the
    component is at rest again, the status reads "Idle", no timer is left
    and no request was sent. *)
Theorem missing_key_stops_session cfg w st :
  openAiKey cfg = [] \/ ocrKey cfg = [] ->
  (exists st',
      captureAndProcess cfg w st = (Normal tt, st') /\
      status (run st') = js "Enter API keys in settings" /\
      capturing (run st') = false /\
      trace st' = trace st ++ [SetStatus (js "Enter API keys in settings");
                               SetCapturing false] /\
      posts (trace st') = posts (trace st)) /\
  (settings st = cfg -> idle st = true ->
   exists st'',
     clickStart w st = (Normal tt, st'') /\
     capturing (run st'') = false /\
     status (run st'') = js "Idle" /\
     In (js "Enter API keys in settings") (statuses (trace st'')) /\
     timers st'' = [] /\
     posts (trace st'') = posts (trace st)).
Proof.
  intros H. split.
  - rewrite cycle_here, (cycle_no_keys cfg w st _ _ H).
    eexists. split; [reflexivity|]. cbn. rewrite posts_app. cbn.
    rewrite app_nil_r. repeat split.
  - intros <- I.
    destruct (start_after w st I) as (r' & evs & E & S).
    rewrite (cycle_no_keys (settings st) w st _ _ H) in E.
    apply (f_equal snd) in E. cbn [snd] in E. apply after_inj in E as [<- E].
    apply app_inv_head in E. subst evs.
    destruct S as [[C _] | (_ & st'' & E'' & R & T & M & _)]; [discriminate C|].
    exists st''. split; [exact E''|]. rewrite R, T, M.
    rewrite !statuses_app, !posts_app. cbn. rewrite app_nil_r.
    repeat split. apply in_or_app. right. cbn. auto.
Qed.

Lemma missing_key_stops_session_witness :
  (openAiKey (initial_settings empty_storage) = [] \/
   ocrKey (initial_settings empty_storage) = []) /\
  exists st'',
    clickStart (world_of (Some sample_frame) (NetworkError (js "Network Error"))
                  (NetworkError (js "Network Error")))
      (mount (world_of None (NetworkError []) (NetworkError [])) empty_storage)
    = (Normal tt, st'') /\
    status (run st'') = js "Idle" /\ timers st'' = [].
Proof.
  split; [left; reflexivity|].
  destruct (missing_key_stops_session (initial_settings empty_storage)
              (world_of (Some sample_frame) (NetworkError (js "Network Error"))
                 (NetworkError (js "Network Error")))
              (mount (world_of None (NetworkError []) (NetworkError [])) empty_storage)
              (or_introl eq_refl)) as [_ S].
  destruct (S eq_refl eq_refl) as (st'' & E & _ & I & _ & T & _).
  exists st''. repeat split; assumption.
Defined.

(** C10. A cycle that stops at the key check changes two things in the run
    state, the status and [capturing]: the answer (which the no-text
    failure does clear) and the dot colour are as they were, and so are the
    settings, the timers and the storage. *)
Theorem missing_key_frame cfg w st :
  openAiKey cfg = [] \/ ocrKey cfg = [] ->
  exists st',
    captureAndProcess cfg w st = (Normal tt, st') /\
    run st' = put_capturing false
                (put_status (js "Enter API keys in settings") (run st)) /\
    answer (run st') = answer (run st) /\
    dotColor (run st') = dotColor (run st) /\
    settings st' = settings st /\
    timerRef st' = timerRef st /\
    timers st' = timers st /\
    localStorage st' = localStorage st.
Proof.
  intros H. rewrite cycle_here, (cycle_no_keys cfg w st _ _ H).
  eexists. split; [reflexivity|]. cbn. repeat split.
Qed.

Lemma missing_key_frame_witness :
  (openAiKey (initial_settings empty_storage) = [] \/
   ocrKey (initial_settings empty_storage) = []) /\
  exists st',
    captureAndProcess (initial_settings empty_storage)
      (world_of (Some sample_frame) (NetworkError []) (NetworkError []))
      (initial empty_storage) = (Normal tt, st') /\
    answer (run st') = VStr (js "").
Proof.
  split; [left; reflexivity|].
  destruct (missing_key_frame (initial_settings empty_storage)
              (world_of (Some sample_frame) (NetworkError []) (NetworkError []))
              (initial empty_storage) (or_introl eq_refl))
    as (st' & E & _ & A & _).
  exists st'. split; [exact E | exact A].
Defined.




(** C7. When the keys are set, the webcam gives a frame, the OCR service
    answers with a non-empty text and the chat service answers with a
    first choice whose content is a string, the cycle ends with the status
    "Complete" and with that content, trimmed, as the answer; the session
    goes on. *)
Theorem successful_cycle_sets_trimmed_answer
    cfg w st cam src code payload t code' payload' c :
  has_keys cfg = true ->
  webcamRef w = Some cam -> getScreenshot cam = Some src -> src <> [] ->
  network w (ocr_request cfg src) = Response code payload ->
  is_2xx code = true ->
  parsed_text payload = VStr t -> t <> [] ->
  network w (chat_request cfg (VStr t)) = Response code' payload' ->
  is_2xx code' = true ->
  first_content (property payload' (js "choices")) = VStr c ->
  exists st',
    captureAndProcess cfg w st = (Normal tt, st') /\
    status (run st') = js "Complete" /\
    answer (run st') = VStr (trim c) /\
    capturing (run st') = capturing (run st) /\
    statuses (trace st') =
      statuses (trace st) ++ [js "Capturing..."; js "Extracting text...";
                              js "Getting answer..."; js "Complete"].
Proof.
  intros K R G S N C P T N' C' F.
  rewrite cycle_here.
  destruct (cycle_frame cfg w st (run st) [] cam src K R G S)
    as (text & f & _ & _ & X & Y).
  rewrite (X _ _ N C), P, js_or_string in *.
  apply truthy_string in T.
  destruct Y as [[TT _] | (_ & -> & a & af & _ & _ & A & E)]; [congruence|].
  specialize (A _ _ N' C'). rewrite F in A. destruct A as [-> ->].
  rewrite E. eexists. split; [reflexivity|]. cbn.
  rewrite statuses_app. repeat split.
Qed.

Lemma successful_cycle_sets_trimmed_answer_witness :
  has_keys sample_settings = true /\
  exists st',
    captureAndProcess sample_settings
      (world_of (Some sample_frame)
         (Response 200 (ocr_body (VStr sample_question)))
         (Response 200 (chat_reply (VStr (js "B")))))
      (initial sample_storage) = (Normal tt, st') /\
    status (run st') = js "Complete" /\
    answer (run st') = VStr (js "B").
Proof.
  split; [reflexivity|].
  destruct (successful_cycle_sets_trimmed_answer sample_settings
              (world_of (Some sample_frame)
                 (Response 200 (ocr_body (VStr sample_question)))
                 (Response 200 (chat_reply (VStr (js "B")))))
              (initial sample_storage) {| getScreenshot := Some sample_frame |}
              sample_frame 200 (ocr_body (VStr sample_question)) sample_question
              200 (chat_reply (VStr (js "B"))) (js "B")
              eq_refl eq_refl eq_refl ltac:(discriminate) eq_refl eq_refl eq_refl
              ltac:(discriminate) eq_refl eq_refl eq_refl)
    as (st' & E & S & A & _).
  exists st'. repeat split; assumption.
Defined.

(** C1. When the completion call fails (no response, or a status outside
    2xx), the cycle ends with the answer "API Error" and the session goes
    on with its timer; the status, set to "OpenAI failed" by the client,
    is then set to "Complete" by the cycle, and "Complete" is what it ends
    with. *)
Theorem failed_completion_ends_Complete cfg w st cam src code payload text :
  has_keys cfg = true ->
  webcamRef w = Some cam -> getScreenshot cam = Some src -> src <> [] ->
  network w (ocr_request cfg src) = Response code payload ->
  is_2xx code = true ->
  parsed_text payload = text -> truthy text = true ->
  rejects (network w (chat_request cfg text)) = true ->
  exists st',
    captureAndProcess cfg w st = (Normal tt, st') /\
    answer (run st') = VStr API_ERROR /\
    status (run st') = js "Complete" /\
    statuses (trace st') =
      statuses (trace st) ++ [js "Capturing..."; js "Extracting text...";
                              js "Getting answer..."; js "OpenAI failed";
                              js "Complete"] /\
    capturing (run st') = capturing (run st) /\
    timers st' = timers st.
Proof.
  intros K R G S N C P T J.
  rewrite cycle_here.
  destruct (cycle_frame cfg w st (run st) [] cam src K R G S)
    as (text' & f & _ & _ & X & Y).
  rewrite (X _ _ N C), P, (js_or_truthy _ _ T) in *.
  destruct Y as [[TT _] | (_ & -> & a & af & A1 & A2 & _ & E)]; [congruence|].
  rewrite (A2 J) in *. rewrite (A1 eq_refl) in *.
  rewrite E. eexists. split; [reflexivity|]. cbn.
  rewrite statuses_app. repeat split.
Qed.

Lemma failed_completion_ends_Complete_witness :
  rejects (Response 500 (VObj [])) = true /\
  exists st',
    captureAndProcess sample_settings
      (world_of (Some sample_frame)
         (Response 200 (ocr_body (VStr sample_question)))
         (Response 500 (VObj [])))
      (initial sample_storage) = (Normal tt, st') /\
    answer (run st') = VStr API_ERROR /\
    status (run st') = js "Complete".
Proof.
  split; [reflexivity|].
  destruct (failed_completion_ends_Complete sample_settings
              (world_of (Some sample_frame)
                 (Response 200 (ocr_body (VStr sample_question)))
                 (Response 500 (VObj [])))
              (initial sample_storage) {| getScreenshot := Some sample_frame |}
              sample_frame 200 (ocr_body (VStr sample_question))
              (VStr sample_question)
              eq_refl eq_refl eq_refl ltac:(discriminate) eq_refl eq_refl eq_refl
              eq_refl eq_refl)
    as (st' & E & A & S & _).
  exists st'. repeat split; assumption.
Defined.

(** When the OCR client returns nothing truthy (the empty string, for
    one), the cycle sets the status "No text found.", clears the answer
    and sends nothing to the chat service; the session goes on. *)
Lemma empty_text_aborts cfg w st cam src :
  has_keys cfg = true ->
  webcamRef w = Some cam -> getScreenshot cam = Some src -> src <> [] ->
  (rejects (network w (ocr_request cfg src)) = true \/
   exists code payload,
     network w (ocr_request cfg src) = Response code payload /\
     is_2xx code = true /\ truthy (parsed_text payload) = false) ->
  exists st',
    captureAndProcess cfg w st = (Normal tt, st') /\
    status (run st') = js "No text found." /\
    answer (run st') = VStr (js "") /\
    capturing (run st') = capturing (run st) /\
    posts (trace st') = posts (trace st) ++ [ocr_request cfg src].
Proof.
  intros K R G S H.
  rewrite cycle_here.
  destruct (cycle_frame cfg w st (run st) [] cam src K R G S)
    as (text & f & F & X1 & X2 & Y).
  assert (TT : truthy text = false).
  { destruct H as [J | (code & payload & N & C & T)].
    - rewrite J in F. now rewrite (X1 F).
    - rewrite (X2 _ _ N C). unfold js_or. now rewrite T. }
  destruct Y as [[_ E] | (T & _)]; [|congruence].
  rewrite E. eexists. split; [reflexivity|]. cbn.
  rewrite posts_app. destruct f; cbn; repeat split.
Qed.

(** C2. When the OCR step returns a text that is not empty but consists
    of white space only, the cycle does not stop at the text check: it
    sends that text to the chat service and ends with the status
    "Complete". *)
Theorem blank_text_reaches_completion cfg w st cam src code payload t :
  has_keys cfg = true ->
  webcamRef w = Some cam -> getScreenshot cam = Some src -> src <> [] ->
  network w (ocr_request cfg src) = Response code payload ->
  is_2xx code = true ->
  parsed_text payload = VStr t -> t <> [] -> trim t = [] ->
  exists st',
    captureAndProcess cfg w st = (Normal tt, st') /\
    posts (trace st') =
      posts (trace st) ++ [ocr_request cfg src; chat_request cfg (VStr t)] /\
    In (js "Getting answer...") (statuses (trace st')) /\
    status (run st') = js "Complete".
Proof.
  intros K R G S N C P T _.
  rewrite cycle_here.
  destruct (cycle_frame cfg w st (run st) [] cam src K R G S)
    as (text & f & _ & _ & X & Y).
  rewrite (X _ _ N C), P, js_or_string in *.
  apply truthy_string in T.
  destruct Y as [[TT _] | (_ & -> & a & af & _ & _ & _ & E)]; [congruence|].
  rewrite E. eexists. split; [reflexivity|]. cbn.
  rewrite posts_app, statuses_app. split; [destruct af; reflexivity|].
  split; [|reflexivity]. apply in_or_app. right. cbn. auto.
Qed.

Lemma blank_text_reaches_completion_witness :
  trim (js " ") = [] /\
  exists st',
    captureAndProcess sample_settings
      (world_of (Some sample_frame)
         (Response 200 (ocr_body (VStr (js " "))))
         (Response 200 (chat_reply (VStr (js "A")))))
      (initial sample_storage) = (Normal tt, st') /\
    posts (trace st') =
      [ocr_request sample_settings sample_frame;
       chat_request sample_settings (VStr (js " "))] /\
    status (run st') = js "Complete".
Proof.
  split; [reflexivity|].
  destruct (blank_text_reaches_completion sample_settings
              (world_of (Some sample_frame)
                 (Response 200 (ocr_body (VStr (js " "))))
                 (Response 200 (chat_reply (VStr (js "A")))))
              (initial sample_storage) {| getScreenshot := Some sample_frame |}
              sample_frame 200 (ocr_body (VStr (js " "))) (js " ")
              eq_refl eq_refl eq_refl ltac:(discriminate) eq_refl eq_refl eq_refl
              ltac:(discriminate) eq_refl)
    as (st' & E & P & _ & S).
  exists st'. repeat split; assumption.
Defined.

(** C8. A session started at rest with both keys set runs one cycle in the
    click's own effect, before the timer it registers (the interval in
    milliseconds) has fired.  Of the four stage phrases "Capturing...",
    "Extracting text...", "Getting answer..." and "Complete", the status
    takes the first [n] in that order, with [n] at least one: the cycle
    stops early when a stage fails, and goes through all four when the
    webcam gives a frame and the OCR service a text. *)
Theorem start_runs_cycle_at_once w st :
  idle st = true ->
  has_keys (settings st) = true ->
  exists st' evs n,
    clickStart w st = (Normal tt, st') /\
    captureAndProcess (settings st) w
      (after st (put_dotColor (js "green") (put_capturing true (run st)))
         [SetCapturing true; SetDotColor (js "green")]) =
      (Normal tt,
       after st (run st') ([SetCapturing true; SetDotColor (js "green")] ++ evs)) /\
    trace st' = trace st ++ [SetCapturing true; SetDotColor (js "green")] ++ evs /\
    capturing (run st') = true /\
    timers st' = [session_timer st] /\
    (1 <= n)%nat /\
    filter is_stage (statuses evs) = firstn n stages /\
    (forall cam src code payload,
        webcamRef w = Some cam -> getScreenshot cam = Some src -> src <> [] ->
        network w (ocr_request (settings st) src) = Response code payload ->
        is_2xx code = true -> truthy (parsed_text payload) = true ->
        n = 4%nat).
Proof.
  intros I K.
  destruct (start_after w st I) as (r' & evs & E & S).
  destruct (cycle_with_keys (settings st) w st
              (put_dotColor (js "green") (put_capturing true (run st)))
              [SetCapturing true; SetDotColor (js "green")] K)
    as (s & a & evs' & n & E' & N & F & A).
  rewrite E' in E. apply (f_equal snd) in E. cbn [snd] in E.
  apply after_inj in E as [<- E]. apply app_inv_head in E. subst evs'.
  destruct S as [(_ & st' & E1 & R & T & M & _) | (C & _)]; [|discriminate C].
  exists st', evs, n. rewrite R. repeat split; assumption.
Qed.

Lemma start_runs_cycle_at_once_witness :
  has_keys (settings (mount (world_of None (NetworkError []) (NetworkError []))
                        sample_storage)) = true /\
  exists st',
    clickStart
      (world_of (Some sample_frame)
         (Response 200 (ocr_body (VStr sample_question)))
         (Response 200 (chat_reply (VStr (js "B")))))
      (mount (world_of None (NetworkError []) (NetworkError [])) sample_storage)
    = (Normal tt, st') /\
    capturing (run st') = true /\
    List.length (timers st') = 1%nat.
Proof.
  split; [reflexivity|].
  destruct (start_runs_cycle_at_once
              (world_of (Some sample_frame)
                 (Response 200 (ocr_body (VStr sample_question)))
                 (Response 200 (chat_reply (VStr (js "B")))))
              (mount (world_of None (NetworkError []) (NetworkError [])) sample_storage)
              eq_refl eq_refl)
    as (st' & evs & n & E & _ & _ & C & T & _).
  exists st'. rewrite T. repeat split; assumption.
Defined.

(** *** The two clients *)

(** A response without [choices] does not always yield the error marker:
    for the body [{}] the client returns the empty string. *)
Lemma missing_choices_is_not_an_error :
  ~ (forall cfg q w st code payload,
        network w (chat_request cfg q) = Response code payload ->
        is_2xx code = true ->
        property payload (js "choices") = VUndefined ->
        fst (askOpenAI cfg q w st) = Normal (VStr API_ERROR)).
Proof.
  intros H.
  specialize (H sample_settings (VStr sample_question)
                (world_of (Some sample_frame)
                   (Response 200 (ocr_body (VStr sample_question)))
                   (Response 200 (VObj [])))
                (initial sample_storage) 200 (VObj []) eq_refl eq_refl eq_refl).
  vm_compute in H. discriminate H.
Qed.

(** C4. The completion client always resolves to a string.  When the
    request fails (no response, or a status outside 2xx) it is the error
    marker "API Error", the client setting the status "OpenAI failed".
    When the service answers 2xx, it is: the trimmed content of the first
    choice, when that content is a string; the empty string, not the error
    marker, when the body is neither [null] nor [undefined] and has no
    [choices], no first choice, no [message] or no [content] (or a [null]
    one); and the error marker again, with the status "OpenAI failed",
    when the body is [null] or [undefined], so that reading [choices]
    throws, or when the content is neither a string nor missing, so that
    calling [trim] throws. *)
Theorem askOpenAI_result cfg q w st :
  exists (a : jsstring) (st' : Store),
    askOpenAI cfg q w st = (Normal (VStr a), st') /\
    (rejects (network w (chat_request cfg q)) = true ->
     a = API_ERROR /\ status (run st') = js "OpenAI failed") /\
    (forall code payload,
        network w (chat_request cfg q) = Response code payload ->
        is_2xx code = true ->
        (forall c,
            first_content (property payload (js "choices")) = VStr c ->
            a = trim c /\ run st' = run st) /\
        (nullish payload = false ->
         nullish (first_content (property payload (js "choices"))) = true ->
         a = js "" /\ run st' = run st) /\
        (nullish payload = true ->
         a = API_ERROR /\ status (run st') = js "OpenAI failed") /\
        (nullish (first_content (property payload (js "choices"))) = false ->
         is_string (first_content (property payload (js "choices"))) = false ->
         a = API_ERROR /\ status (run st') = js "OpenAI failed")).
Proof.
  rewrite <- (after_self st).
  destruct (askOpenAI_after cfg q w st (run st) []) as (a & f & E & A1 & A2 & A3).
  exists a. eexists. split; [exact E|]. rewrite after_self. cbn [run after].
  split.
  - intros J. rewrite (A2 J) in *. now rewrite (A1 eq_refl).
  - intros code payload N C. specialize (A3 _ _ N C).
    split; [|split; [|split]].
    + intros c F. rewrite F in A3. destruct A3 as [-> ->]. auto.
    + intros P F. rewrite P in A3.
      destruct (first_content (property payload (js "choices")));
        try discriminate F; destruct A3 as [-> ->]; auto.
    + intros P. rewrite P in A3.
      destruct payload; try discriminate P; cbn in A3; subst f;
        now rewrite (A1 eq_refl).
    + intros F S.
      destruct (first_content (property payload (js "choices")));
        try discriminate F; try discriminate S; subst f;
        now rewrite (A1 eq_refl).
Qed.

Lemma askOpenAI_result_witness :
  (exists a st',
      askOpenAI sample_settings (VStr sample_question)
        (world_of (Some sample_frame)
           (Response 200 (ocr_body (VStr sample_question)))
           (Response 200 (VObj [])))
        (initial sample_storage) = (Normal (VStr a), st') /\
      a = js "") /\
  (exists a st',
      askOpenAI sample_settings (VStr sample_question)
        (world_of (Some sample_frame)
           (Response 200 (ocr_body (VStr sample_question)))
           (Response 200 VNull))
        (initial sample_storage) = (Normal (VStr a), st') /\
      a = API_ERROR).
Proof.
  split.
  - destruct (askOpenAI_result sample_settings (VStr sample_question)
                (world_of (Some sample_frame)
                   (Response 200 (ocr_body (VStr sample_question)))
                   (Response 200 (VObj [])))
                (initial sample_storage))
      as (a & st' & E & _ & M).
    exists a, st'. split; [exact E|].
    exact (proj1 (proj1 (proj2 (M 200 (VObj []) eq_refl eq_refl)) eq_refl eq_refl)).
  - destruct (askOpenAI_result sample_settings (VStr sample_question)
                (world_of (Some sample_frame)
                   (Response 200 (ocr_body (VStr sample_question)))
                   (Response 200 VNull))
                (initial sample_storage))
      as (a & st' & E & _ & M).
    exists a, st'. split; [exact E|].
    exact (proj1 (proj1 (proj2 (proj2 (M 200 VNull eq_refl eq_refl))) eq_refl)).
Defined.

(** The OCR client does not always return a string: a [ParsedText] that
    is a number comes back as that number. *)
Lemma doOcr_may_return_a_number :
  ~ (forall cfg src w st, exists s, fst (doOcr cfg src w st) = Normal (VStr s)).
Proof.
  intros H.
  destruct (H sample_settings sample_frame
              (world_of (Some sample_frame)
                 (Response 200 (ocr_body (VNum (num_of_Z 42))))
                 (NetworkError []))
              (initial sample_storage)) as [s E].
  vm_compute in E. discriminate E.
Qed.

(** C6. The OCR client never throws: it returns a value whatever the
    network does.  The value is the empty string when the request fails
    (no response, or a status outside 2xx) and when a 2xx body has no
    truthy [ParsedText] in a first parsed result; otherwise it is that
    [ParsedText] as received, hence a string whenever the service sent a
    string. *)
Theorem doOcr_total cfg src w st :
  exists (v : value) (st' : Store),
    doOcr cfg src w st = (Normal v, st') /\
    (rejects (network w (ocr_request cfg src)) = true -> v = VStr (js "")) /\
    (forall code payload,
        network w (ocr_request cfg src) = Response code payload ->
        is_2xx code = true ->
        (forall t, parsed_text payload = VStr t -> v = VStr t) /\
        (truthy (parsed_text payload) = false -> v = VStr (js "")) /\
        (truthy (parsed_text payload) = true -> v = parsed_text payload)).
Proof.
  rewrite <- (after_self st).
  destruct (doOcr_after cfg src w st (run st) []) as (v & f & E & F & X1 & X2).
  exists v. eexists. split; [exact E|]. split.
  - intros J. apply X1. congruence.
  - intros code payload N C. rewrite (X2 _ _ N C). repeat split.
    + intros t ->. apply js_or_string.
    + unfold js_or. now intros ->.
    + apply js_or_truthy.
Qed.

Lemma doOcr_total_witness :
  exists v st',
    doOcr sample_settings sample_frame
      (world_of (Some sample_frame)
         (Response 200 (ocr_body (VStr sample_question)))
         (NetworkError []))
      (initial sample_storage) = (Normal v, st') /\
    v = VStr sample_question.
Proof.
  destruct (doOcr_total sample_settings sample_frame
              (world_of (Some sample_frame)
                 (Response 200 (ocr_body (VStr sample_question)))
                 (NetworkError []))
              (initial sample_storage))
    as (v & st' & E & _ & P).
  exists v, st'. split; [exact E|].
  exact (proj1 (P 200 (ocr_body (VStr sample_question)) eq_refl eq_refl)
           sample_question eq_refl).
Defined.

(** *** Settings *)

Lemma cycle_settings cfg w st :
  exists st', captureAndProcess cfg w st = (Normal tt, st') /\
              settings st' = settings st.
Proof.
  rewrite cycle_here.
  destruct (cycle_after cfg w st (run st) []) as (r' & evs & E).
  rewrite E. eexists. split; reflexivity.
Qed.

Lemma clear_current_settings w st :
  exists st', clear_current w st = (Normal tt, st') /\
              settings st' = settings st /\ run st' = run st.
Proof.
  unfold clear_current, clearInterval, set_timers.
  destruct (timerRef st); eexists; repeat split.
Qed.

(** The effect and its clean-up leave the settings alone. *)
Lemma commit_settings w st :
  exists st', commit w st = (Normal tt, st') /\ settings st' = settings st.
Proof.
  unfold commit, bind.
  assert (A : exists sa, (if cleanup st then clear_current else ret tt) w st
                         = (Normal tt, sa) /\
                         settings sa = settings st /\ run sa = run st).
  { destruct (cleanup st); [apply clear_current_settings|].
    eexists; repeat split. }
  destruct A as (sa & -> & SA & RA).
  unfold effect. destruct (capturing (run sa)).
  - unfold setDotColor, bind, fire, ret, with_run.
    destruct (cycle_settings (settings sa) w
                (after sa (put_dotColor (js "green") (run sa))
                   [SetDotColor (js "green")])) as (sb & -> & SB).
    cbn [snd]. unfold setInterval_current, set_timers, set_cleanup.
    eexists. split; [reflexivity|]. cbn. now rewrite SB.
  - unfold setDotColor, setStatus, bind, ret, with_run.
    destruct (clear_current_settings w
                (after sa (put_dotColor (js "red") (run sa))
                   [SetDotColor (js "red")])) as (sb & -> & SB & _).
    unfold set_cleanup. eexists. split; [reflexivity|]. cbn. now rewrite SB.
Qed.

Lemma set_dependency_settings changed f w st :
  exists st', set_dependency changed f w st = (Normal tt, st') /\
              settings st' = f (settings st).
Proof.
  unfold set_dependency, bind, set_settings.
  destruct changed.
  - match goal with |- context [commit w ?s] =>
      destruct (commit_settings w s) as (s1 & -> & S1) end.
    cbn [settings] in S1.
    destruct (Bool.eqb _ _); [now exists s1|].
    destruct (commit_settings w s1) as (s2 & -> & S2).
    exists s2. split; [reflexivity | congruence].
  - eexists. split; reflexivity.
Qed.

Ltac by_dependency :=
  match goal with
  | |- context [set_dependency ?c ?f ?w ?st] =>
      let st' := fresh "st'" in
      let E := fresh "E" in
      let S := fresh "S" in
      destruct (set_dependency_settings c f w st) as (st' & E & S);
      rewrite E; cbn [snd]; rewrite S
  end.

Example Number_40 : StringToNumber (js "40") = DEFAULT_INTERVAL.
Proof. reflexivity. Qed.

Example Number_zero : StringToNumber (js "0") = S754_zero false.
Proof. reflexivity. Qed.

Example Number_empty : StringToNumber (js "") = S754_zero false.
Proof. reflexivity. Qed.

Example Number_negative :
  is_positive_integer (StringToNumber (js "-5")) = false.
Proof. reflexivity. Qed.

Example Number_fraction :
  is_positive_integer (StringToNumber (js "1.5")) = false.
Proof. reflexivity. Qed.

Example Number_text : StringToNumber (js "soon") = S754_nan.
Proof. reflexivity. Qed.

(** The interval need not stay a positive integer, neither through an
    edit nor at startup: typing [0] in the field makes it zero, and a
    stored [0] is loaded as zero. *)
Lemma interval_need_not_stay_positive :
  ~ (forall text w st,
        is_positive_integer (interval (settings st)) = true ->
        is_positive_integer
          (interval (settings (snd (changeInterval text w st)))) = true) /\
  ~ (forall storage,
        is_positive_integer (interval (initial_settings storage)) = true).
Proof.
  split; intros H.
  - specialize (H (js "0") (world_of None (NetworkError []) (NetworkError []))
                  (initial empty_storage) eq_refl).
    vm_compute in H. discriminate H.
  - specialize (H (fun k => if jseqb k (js "interval") then Some (js "0") else None)).
    vm_compute in H. discriminate H.
Qed.

Section SaveFacts.

Variable toString : number -> jsstring.

Lemma saveSettings_interval w st :
  exists st',
    saveSettings toString w st = (Normal tt, st') /\
    interval (settings st') = interval (settings st) /\
    localStorage st' (js "interval") = Some (toString (interval (settings st))).
Proof.
  unfold saveSettings, bind, setItem, set_settings. cbn.
  eexists. repeat split.
Qed.

End SaveFacts.

Lemma with_run_settings f e w st :
  settings (snd (with_run f e w st)) = settings st.
Proof. reflexivity. Qed.

(** The start and stop buttons and the timer leave the settings alone. *)
Lemma session_settings w st id :
  settings (snd (clickStart w st)) = settings st /\
  settings (snd (clickStop w st)) = settings st /\
  settings (snd (tick id w st)) = settings st.
Proof.
  split; [|split].
  - unfold clickStart. destruct (capturing (run st)); [reflexivity|].
    unfold setCapturing, bind, with_run.
    match goal with |- context [commit w ?s] =>
      destruct (commit_settings w s) as (s1 & -> & E1) end.
    cbn [settings after] in E1.
    destruct (capturing (run s1)); [exact E1|].
    destruct (commit_settings w s1) as (s2 & -> & E2). cbn [snd]. congruence.
  - unfold clickStop. destruct (capturing (run st)); [|reflexivity].
    unfold setCapturing, bind, with_run.
    match goal with |- context [commit w ?s] =>
      destruct (commit_settings w s) as (s1 & -> & E1) end.
    exact E1.
  - unfold tick. destruct (find _ (timers st)) as [t |]; [|reflexivity].
    unfold bind, fire.
    destruct (cycle_settings (timer_closure t) w st) as (s1 & -> & E1).
    cbn [snd]. destruct (Bool.eqb _ _); [exact E1|].
    destruct (commit_settings w s1) as (s2 & -> & E2). cbn [snd]. congruence.
Qed.

(** C9. The interval is 40, a positive integer, when storage holds no
    interval (or an empty one).  Otherwise it is, at startup, [Number] of
    the stored text and, after an edit, [Number] of the field's text,
    whatever number that is: nothing checks that it is positive or whole.
    Saving stores its text and leaves it as it is, and so do the other
    handlers, the start and stop buttons and the timer. *)
Theorem interval_is_Number_of_its_text
    (toString : number -> jsstring) storage text w st :
  ((storage (js "interval") = None \/ storage (js "interval") = Some []) ->
   interval (initial_settings storage) = num_of_Z 40 /\
   is_positive_integer (interval (initial_settings storage)) = true) /\
  (forall s, storage (js "interval") = Some s -> s <> [] ->
             interval (initial_settings storage) = StringToNumber s) /\
  interval (settings (mount w storage)) = interval (initial_settings storage) /\
  interval (settings (snd (changeInterval text w st))) = StringToNumber text /\
  (is_positive_integer (StringToNumber text) = true ->
   is_positive_integer (interval (settings (snd (changeInterval text w st)))) = true) /\
  interval (settings (snd (saveSettings toString w st))) = interval (settings st) /\
  localStorage (snd (saveSettings toString w st)) (js "interval")
    = Some (toString (interval (settings st))) /\
  interval (settings (snd (changeOpenAiKey text w st))) = interval (settings st) /\
  interval (settings (snd (changeOcrKey text w st))) = interval (settings st) /\
  interval (settings (snd (changePrompt text w st))) = interval (settings st) /\
  interval (settings (snd (openSettings w st))) = interval (settings st) /\
  (forall id,
      interval (settings (snd (clickStart w st))) = interval (settings st) /\
      interval (settings (snd (clickStop w st))) = interval (settings st) /\
      interval (settings (snd (tick id w st))) = interval (settings st)).
Proof.
  assert (CI : interval (settings (snd (changeInterval text w st))) = StringToNumber text).
  { unfold changeInterval.
    by_dependency. reflexivity. }
  split; [|split; [|split; [|split; [|split; [|split; [|split; [|split; [|split; [|split; [|split]]]]]]]]]].
  - intros H. unfold initial_settings, initial_interval. cbn [interval].
    destruct H as [-> | ->]; split; reflexivity.
  - intros s E N. unfold initial_settings, initial_interval. cbn [interval].
    rewrite E. destruct s; [congruence | reflexivity].
  - unfold mount. destruct (commit_settings w (initial storage)) as (st' & -> & E).
    cbn [snd]. now rewrite E.
  - exact CI.
  - now rewrite CI.
  - destruct (saveSettings_interval toString w st) as (st' & -> & E & _). exact E.
  - destruct (saveSettings_interval toString w st) as (st' & -> & _ & E). exact E.
  - unfold changeOpenAiKey. by_dependency. reflexivity.
  - unfold changeOcrKey. by_dependency. reflexivity.
  - unfold changePrompt. by_dependency. reflexivity.
  - reflexivity.
  - intros id. destruct (session_settings w st id) as (-> & -> & ->). auto.
Qed.

Lemma interval_is_Number_of_its_text_witness :
  interval (settings (snd (changeInterval (js "10")
                            (world_of None (NetworkError []) (NetworkError []))
                            (initial empty_storage))))
  = num_of_Z 10.
Proof.
  exact (proj1 (proj2 (proj2 (proj2
           (interval_is_Number_of_its_text (fun _ => js "10") empty_storage (js "10")
              (world_of None (NetworkError []) (NetworkError []))
              (initial empty_storage)))))).
Defined.

(** *** The previous revision *)

(** The cycle of the previous revision trimmed the OCR text before
    testing it: there, a text of white space only stops the cycle with
    "No text found." and nothing is sent to the chat service. *)
Lemma rev2_blank_text_aborts cfg w st cam src code payload t :
  ocrKey cfg <> [] ->
  webcamRef w = Some cam -> getScreenshot cam = Some src -> src <> [] ->
  network w (ocr_request cfg src) = Response code payload ->
  is_2xx code = true ->
  parsed_text payload = VStr t -> trim t = [] ->
  exists st',
    Rev2.captureAndProcess cfg w st = (Normal tt, st') /\
    status (run st') = js "No text found." /\
    answer (run st') = VStr (js "") /\
    posts (trace st') = posts (trace st) ++ [ocr_request cfg src].
Proof.
  intros K R G S N C P T.
  apply truthy_string in K.
  unfold Rev2.captureAndProcess, Rev2.screenshot_or_null, Rev2.doOcr, Rev2.call_trim,
    call_getScreenshot, axios_post, setStatus, setAnswer, try_catch, bind, ret.
  unfold with_run at 1. rewrite R, with_run_after, G.
  destruct src as [| c0 src0]; [congruence|].
  rewrite with_run_after, K. cbn [negb]. rewrite with_run_after.
  fold (ocr_request cfg (c0 :: src0)). rewrite N, C. cbn [data].
  rewrite P, js_or_string, T. cbn [truthy negb].
  rewrite !with_run_after. eexists. split; [reflexivity|]. cbn.
  rewrite posts_app. repeat split.
Qed.

(** The previous revision also cleared the answer when the webcam gave no
    frame; [App.tsx] leaves it. *)
Lemma rev2_no_frame_clears_answer cfg w st cam :
  webcamRef w = Some cam ->
  truthy (of_nullable (getScreenshot cam)) = false ->
  exists st',
    Rev2.captureAndProcess cfg w st = (Normal tt, st') /\
    status (run st') = js "Camera not ready or failed to capture image." /\
    answer (run st') = VStr (js "").
Proof.
  intros R F.
  unfold Rev2.captureAndProcess, Rev2.screenshot_or_null, call_getScreenshot,
    setStatus, setAnswer, try_catch, bind, ret.
  unfold with_run at 1. rewrite R, with_run_after.
  destruct (getScreenshot cam) as [[| c0 src0] |]; try discriminate F;
    rewrite !with_run_after; eexists; repeat split.
Qed.


(** ** Further properties of the cycle *)

(** Every cycle leaves one of five texts in the status line.  The texts
    "OCR failed" and "OpenAI failed", which the two clients set when their
    request fails, are never among them, and neither are the two
    intermediate stage phrases. *)
Theorem cycle_final_status cfg w st :
  In (status (run (snd (captureAndProcess cfg w st))))
     [ js "Enter API keys in settings"; js "Capturing..."; js "Camera failed.";
       js "No text found."; js "Complete" ] /\
  (has_keys cfg = true -> webcamRef w <> None ->
   In (status (run (snd (captureAndProcess cfg w st))))
      [ js "Camera failed."; js "No text found."; js "Complete" ]).
Proof.
  rewrite cycle_here.
  destruct (has_keys cfg) eqn:K.
  - destruct (webcamRef w) as [cam |] eqn:R.
    + destruct (truthy (of_nullable (getScreenshot cam))) eqn:T.
      * destruct (getScreenshot cam) as [src |] eqn:G; [|discriminate T].
        apply truthy_string in T.
        destruct (cycle_frame cfg w st (run st) [] cam src K R G T)
          as (text & f & _ & _ & _ & [[_ E] | (_ & _ & a & af & _ & _ & _ & E)]);
          rewrite E; cbn; auto 10.
      * rewrite (cycle_no_frame cfg w st _ _ cam K R T). cbn. auto 10.
    + rewrite (cycle_no_ref cfg w st _ _ K R). cbn. split; [auto 10|]. congruence.
  - apply has_keys_false in K. rewrite (cycle_no_keys cfg w st _ _ K). cbn.
    split; [auto 10|]. discriminate.
Qed.

(** A cycle sends at most two requests.  It sends none when a key is
    missing, the webcam is not mounted or gives no frame.  Otherwise it
    sends the OCR request for the frame, alone when that request fails or
    brings no truthy [ParsedText], and followed by the chat request whose
    question is that very [ParsedText] when it brings one. *)
Theorem cycle_sends_at_most_two_requests cfg w st :
  exists evs,
    trace (snd (captureAndProcess cfg w st)) = trace st ++ evs /\
    ((posts evs = [] /\
      (has_keys cfg = false \/ webcamRef w = None \/
       exists cam,
         webcamRef w = Some cam /\
         truthy (of_nullable (getScreenshot cam)) = false))
     \/
     exists cam src,
       has_keys cfg = true /\
       webcamRef w = Some cam /\ getScreenshot cam = Some src /\ src <> [] /\
       ((posts evs = [ocr_request cfg src] /\
         (rejects (network w (ocr_request cfg src)) = true \/
          exists code payload,
            network w (ocr_request cfg src) = Response code payload /\
            is_2xx code = true /\
            truthy (parsed_text payload) = false))
        \/
        exists code payload,
          network w (ocr_request cfg src) = Response code payload /\
          is_2xx code = true /\
          truthy (parsed_text payload) = true /\
          posts evs = [ocr_request cfg src;
                       chat_request cfg (parsed_text payload)])).
Proof.
  rewrite cycle_here.
  destruct (has_keys cfg) eqn:K.
  - destruct (webcamRef w) as [cam |] eqn:R.
    + destruct (truthy (of_nullable (getScreenshot cam))) eqn:T.
      * destruct (getScreenshot cam) as [src |] eqn:G; [|discriminate T].
        apply truthy_string in T.
        destruct (cycle_frame cfg w st (run st) [] cam src K R G T)
          as (text & f & F & X1 & X2 & [[TT E] | (TT & -> & a & af & _ & _ & _ & E)]);
          rewrite E; eexists; (split; [reflexivity|]); right; exists cam, src;
          (split; [reflexivity|]); (split; [reflexivity|]); (split; [exact G|]);
          (split; [exact T|]).
        -- left. split; [destruct f; reflexivity|].
           destruct (network w (ocr_request cfg src)) as [m | code payload] eqn:N;
             [left; reflexivity|].
           destruct (is_2xx code) eqn:C; cbn; rewrite C; [|left; reflexivity].
           right. exists code, payload. repeat split; try assumption.
           rewrite (X2 _ _ eq_refl C) in TT. unfold js_or in TT.
           destruct (truthy (parsed_text payload)) eqn:P; [|reflexivity].
           cbv iota in TT. congruence.
        -- right.
           destruct (network w (ocr_request cfg src)) as [m | code payload] eqn:N;
             [discriminate F|].
           cbn in F. destruct (is_2xx code) eqn:C; [|discriminate F].
           pose proof (X2 _ _ eq_refl C) as X. unfold js_or in X.
           destruct (truthy (parsed_text payload)) eqn:P;
             [|subst text; discriminate TT].
           subst text. exists code, payload. repeat split; try assumption.
           destruct af; reflexivity.
      * rewrite (cycle_no_frame cfg w st _ _ cam K R T).
        eexists. split; [reflexivity|]. left. split; [reflexivity|].
        right. right. exists cam. auto.
    + rewrite (cycle_no_ref cfg w st _ _ K R).
      eexists. split; [reflexivity|]. left. split; [reflexivity|]. auto.
  - pose proof K as K'. apply has_keys_false in K'.
    rewrite (cycle_no_keys cfg w st _ _ K').
    eexists. split; [reflexivity|]. left. split; [reflexivity|]. auto.
Qed.

(** When the OCR request fails (no response, or a status outside 2xx), the
    client sets the status "OCR failed" and the cycle goes on as for an
    empty text: it replaces that status by "No text found.", clears the
    answer and sends nothing to the chat service; the session goes on. *)
Theorem failed_ocr_ends_No_text cfg w st cam src :
  has_keys cfg = true ->
  webcamRef w = Some cam -> getScreenshot cam = Some src -> src <> [] ->
  rejects (network w (ocr_request cfg src)) = true ->
  exists st',
    captureAndProcess cfg w st = (Normal tt, st') /\
    statuses (trace st') =
      statuses (trace st) ++ [js "Capturing..."; js "Extracting text...";
                              js "OCR failed"; js "No text found."] /\
    status (run st') = js "No text found." /\
    answer (run st') = VStr (js "") /\
    posts (trace st') = posts (trace st) ++ [ocr_request cfg src] /\
    capturing (run st') = capturing (run st) /\
    timers st' = timers st.
Proof.
  intros K R G S J.
  rewrite cycle_here.
  destruct (cycle_frame cfg w st (run st) [] cam src K R G S)
    as (text & f & F & X1 & _ & Y).
  rewrite J in F. subst f. specialize (X1 eq_refl). subst text.
  destruct Y as [[_ E] | (T & _)]; [|discriminate T].
  rewrite E. eexists. split; [reflexivity|]. cbn.
  rewrite statuses_app, posts_app. repeat split.
Qed.

Lemma failed_ocr_ends_No_text_witness :
  rejects (Response 403 (VStr (js "Forbidden"))) = true /\
  exists st',
    captureAndProcess sample_settings
      (world_of (Some sample_frame) (Response 403 (VStr (js "Forbidden")))
         (Response 200 (chat_reply (VStr (js "B")))))
      (initial sample_storage) = (Normal tt, st') /\
    status (run st') = js "No text found." /\
    posts (trace st') = [ocr_request sample_settings sample_frame].
Proof.
  split; [reflexivity|].
  destruct (failed_ocr_ends_No_text sample_settings
              (world_of (Some sample_frame) (Response 403 (VStr (js "Forbidden")))
                 (Response 200 (chat_reply (VStr (js "B")))))
              (initial sample_storage) {| getScreenshot := Some sample_frame |}
              sample_frame eq_refl eq_refl eq_refl ltac:(discriminate) eq_refl)
    as (st' & E & _ & S & _ & P & _).
  exists st'. repeat split; assumption.
Defined.

(** *** White space *)

Lemma trimStart_idempotent s : trimStart (trimStart s) = trimStart s.
Proof.
  induction s as [| c s IH]; [reflexivity|].
  cbn. destruct (is_whitespace c) eqn:W; [exact IH|].
  cbn. now rewrite W.
Qed.

Lemma trimStart_snoc s c :
  trimStart (s ++ [c]) =
    if forallb is_whitespace s
    then (if is_whitespace c then [] else [c])
    else trimStart s ++ [c].
Proof.
  induction s as [| d s IH]; [reflexivity|].
  cbn. destruct (is_whitespace d); [exact IH | reflexivity].
Qed.

Lemma trimEnd_cons c s :
  trimEnd (c :: s) =
    match trimEnd s with
    | [] => if is_whitespace c then [] else [c]
    | t => c :: t
    end.
Proof.
  unfold trimEnd. cbn [rev]. rewrite trimStart_snoc.
  destruct (forallb is_whitespace (rev s)) eqn:A.
  - assert (E : trimStart (rev s) = []).
    { clear -A. induction (rev s) as [| d l IH]; [reflexivity|].
      cbn in *. apply andb_prop in A as [-> A]. auto. }
    rewrite E. cbn. destruct (is_whitespace c); reflexivity.
  - rewrite rev_app_distr. cbn.
    destruct (rev (trimStart (rev s))) eqn:E; [|reflexivity].
    exfalso. apply (f_equal (@rev N)) in E. rewrite rev_involutive in E. cbn in E.
    clear -A E. induction (rev s) as [| d l IH]; [discriminate A|].
    cbn in *. destruct (is_whitespace d); [auto | discriminate E].
Qed.

Lemma trimEnd_idempotent s : trimEnd (trimEnd s) = trimEnd s.
Proof.
  unfold trimEnd. now rewrite rev_involutive, trimStart_idempotent.
Qed.

(** What is left of a string that starts with no white space starts with
    none once its end is trimmed. *)
Lemma trimStart_trimEnd s :
  trimStart s = s -> trimStart (trimEnd s) = trimEnd s.
Proof.
  destruct s as [| c s]; [reflexivity|].
  cbn [trimStart]. destruct (is_whitespace c) eqn:W.
  - intros E. exfalso.
    assert (L : (List.length (trimStart s) <= List.length s)%nat).
    { clear. induction s as [| d s IH]; cbn; [lia|].
      destruct (is_whitespace d); cbn; lia. }
    rewrite E in L. cbn in L. lia.
  - intros _. rewrite trimEnd_cons.
    destruct (trimEnd s); rewrite ?W; cbn [trimStart]; now rewrite W.
Qed.

Lemma trim_idempotent s : trim (trim s) = trim s.
Proof.
  unfold trim.
  rewrite (trimStart_trimEnd (trimStart s) (trimStart_idempotent s)).
  apply trimEnd_idempotent.
Qed.

(** What the completion client resolves to is always a string that
    neither starts nor ends with white space: trimming it again changes
    nothing.  The client changes the status at most: the answer and the
    session are as they were. *)
Theorem askOpenAI_answer_is_trimmed cfg q w st :
  exists (a : jsstring) (st' : Store),
    askOpenAI cfg q w st = (Normal (VStr a), st') /\
    trim a = a /\
    answer (run st') = answer (run st) /\
    capturing (run st') = capturing (run st) /\
    posts (trace st') = posts (trace st) ++ [chat_request cfg q].
Proof.
  rewrite <- (after_self st).
  destruct (askOpenAI_after cfg q w st (run st) []) as (a & f & E & A1 & A2 & A3).
  exists a. eexists. split; [exact E|]. rewrite after_self. cbn [run after trace].
  split; [|split; [|split]].
  - destruct f.
    + now rewrite (A1 eq_refl).
    + destruct (network w (chat_request cfg q)) as [m | code payload] eqn:N.
      * specialize (A2 eq_refl). discriminate A2.
      * destruct (is_2xx code) eqn:C.
        -- specialize (A3 _ _ eq_refl C).
           destruct (first_content (property payload (js "choices")));
             try discriminate A3;
             try (destruct (nullish payload); [discriminate A3|];
                  destruct A3 as [_ ->]; reflexivity).
           destruct A3 as [_ ->]. apply trim_idempotent.
        -- cbn in A2. rewrite C in A2. specialize (A2 eq_refl). discriminate A2.
  - destruct f; reflexivity.
  - destruct f; reflexivity.
  - rewrite posts_app. destruct f; reflexivity.
Qed.

(** ** Further properties of a session *)

(** What a start with both keys set leaves behind. *)
Lemma started_session w st st' :
  idle st = true -> has_keys (settings st) = true ->
  clickStart w st = (Normal tt, st') ->
  capturing (run st') = true /\
  timers st' = [session_timer st] /\
  timerRef st' = Some (next_timer st) /\
  cleanup st' = true /\
  settings st' = settings st.
Proof.
  intros I K E.
  destruct (start_after w st I) as (r' & evs & E0 & S).
  destruct (cycle_with_keys (settings st) w st
              (put_dotColor (js "green") (put_capturing true (run st)))
              [SetCapturing true; SetDotColor (js "green")] K)
    as (s & a & evs' & n & E' & _).
  rewrite E' in E0. apply (f_equal snd) in E0. cbn [snd] in E0.
  apply after_inj in E0 as [<- _].
  destruct S as [(_ & s1 & E1 & R & _ & M & F & L & G) | (C & _)]; [|discriminate C].
  rewrite E in E1. injection E1 as <-. rewrite R. repeat split; assumption.
Qed.

(** A cycle with both keys set begins by setting "Capturing...", and
    leaves [capturing] as it is. *)
Lemma cycle_with_keys_here cfg w st :
  has_keys cfg = true ->
  exists s a evs,
    captureAndProcess cfg w st =
      (Normal tt, after st (put_answer a (put_status s (run st))) evs) /\
    In (js "Capturing...") (statuses evs).
Proof.
  intros K. rewrite cycle_here.
  destruct (cycle_with_keys cfg w st (run st) [] K)
    as (s & a & evs & n & E & N & F & _).
  exists s, a, evs. split; [exact E|].
  assert (H : In (js "Capturing...") (filter is_stage (statuses evs))).
  { rewrite F. destruct n; [lia|]. cbn. auto. }
  apply filter_In in H. tauto.
Qed.

(** When the session's timer fires, exactly one cycle runs, with the
    settings the session was started with; whatever that cycle meets
    (no frame, no text, a failed request), the session goes on with the
    same timer. *)
Theorem tick_runs_one_cycle_and_keeps_session w w' st st' :
  idle st = true -> has_keys (settings st) = true ->
  clickStart w st = (Normal tt, st') ->
  tick (next_timer st) w' st' = captureAndProcess (settings st) w' st' /\
  capturing (run (snd (tick (next_timer st) w' st'))) = true /\
  timers (snd (tick (next_timer st) w' st')) = [session_timer st].
Proof.
  intros I K E.
  destruct (started_session w st st' I K E) as (C & M & _ & _ & _).
  destruct (cycle_with_keys_here (settings st) w' st' K) as (s & a & evs & E' & _).
  assert (T : tick (next_timer st) w' st' = captureAndProcess (settings st) w' st').
  { unfold tick. rewrite M. cbn [find timer_id session_timer].
    rewrite Nat.eqb_refl. cbn [timer_closure session_timer].
    unfold bind, fire. rewrite E'. cbn [snd run after capturing put_answer put_status].
    rewrite C. reflexivity. }
  rewrite T, E'. cbn. auto.
Qed.

Lemma tick_runs_one_cycle_and_keeps_session_witness :
  has_keys (settings (initial sample_storage)) = true /\
  capturing
    (run (snd (tick 1 (world_of None (NetworkError []) (NetworkError []))
                 (snd (clickStart
                         (world_of (Some sample_frame) (NetworkError [])
                            (NetworkError []))
                         (mount (world_of None (NetworkError []) (NetworkError []))
                            sample_storage))))))
  = true.
Proof.
  split; [reflexivity|].
  exact (proj1 (proj2
           (tick_runs_one_cycle_and_keeps_session
              (world_of (Some sample_frame) (NetworkError []) (NetworkError []))
              (world_of None (NetworkError []) (NetworkError []))
              (mount (world_of None (NetworkError []) (NetworkError [])) sample_storage)
              (snd (clickStart
                      (world_of (Some sample_frame) (NetworkError [])
                         (NetworkError []))
                      (mount (world_of None (NetworkError []) (NetworkError []))
                         sample_storage)))
              ltac:(vm_compute; reflexivity) ltac:(vm_compute; reflexivity)
              ltac:(vm_compute; reflexivity)))).
Defined.

(** Once a session is stopped no new cycle starts: [capturing] is
    [false], the timer is gone, and a late firing of it, or of any other,
    does nothing.  (What a cycle still under way at the time of the stop
    writes afterwards is not part of this statement.) *)
Theorem no_cycle_after_stop w w1 w2 st st' st'' id :
  idle st = true ->
  clickStart w st = (Normal tt, st') ->
  capturing (run st') = true ->
  clickStop w1 st' = (Normal tt, st'') ->
  tick id w2 st'' = (Normal tt, st'') /\
  timers st'' = [] /\
  capturing (run st'') = false.
Proof.
  intros I E C E'.
  destruct (stop_returns_to_rest w w1 st st' I E C) as (s2 & E2 & I2 & _ & T2).
  rewrite E' in E2. injection E2 as <-.
  apply idle_inv in I2 as (C2 & _ & _).
  unfold tick. rewrite T2. cbn. auto.
Qed.

Lemma no_cycle_after_stop_witness :
  timers
    (snd (clickStop (world_of None (NetworkError []) (NetworkError []))
            (snd (clickStart
                    (world_of (Some sample_frame) (NetworkError [])
                       (NetworkError []))
                    (mount (world_of None (NetworkError []) (NetworkError []))
                       sample_storage)))))
  = [].
Proof.
  exact (proj1 (proj2
           (no_cycle_after_stop
              (world_of (Some sample_frame) (NetworkError []) (NetworkError []))
              (world_of None (NetworkError []) (NetworkError []))
              (world_of None (NetworkError []) (NetworkError []))
              (mount (world_of None (NetworkError []) (NetworkError [])) sample_storage)
              (snd (clickStart
                      (world_of (Some sample_frame) (NetworkError [])
                         (NetworkError []))
                      (mount (world_of None (NetworkError []) (NetworkError []))
                         sample_storage)))
              (snd (clickStop (world_of None (NetworkError []) (NetworkError []))
                      (snd (clickStart
                              (world_of (Some sample_frame) (NetworkError [])
                                 (NetworkError []))
                              (mount (world_of None (NetworkError []) (NetworkError []))
                                 sample_storage)))))
              1%nat
              ltac:(vm_compute; reflexivity) ltac:(vm_compute; reflexivity)
              ltac:(vm_compute; reflexivity) ltac:(vm_compute; reflexivity)))).
Defined.



(** *** Saving and loading *)

Ltac eval_keys :=
  repeat match goal with
         | |- context [jseqb (js ?a) (js ?b)] =>
             let v := eval vm_compute in (jseqb (js a) (js b)) in
             change (jseqb (js a) (js b)) with v
         end;
  cbv beta iota.

(** Saving, then loading the page again: the two keys come back trimmed,
    the prompt comes back as it was (an empty one as the default prompt),
    and the interval comes back as it was when [Number] reads back the
    text [toString] wrote for it.  Saving itself changes neither the keys
    in use nor the pipeline's variables; it closes the dialog. *)
Theorem save_then_reload (toString : number -> jsstring) w st :
  toString (interval (settings st)) <> [] ->
  StringToNumber (toString (interval (settings st))) = interval (settings st) ->
  exists st',
    saveSettings toString w st = (Normal tt, st') /\
    openAiKey (initial_settings (localStorage st')) = trim (openAiKey (settings st)) /\
    ocrKey (initial_settings (localStorage st')) = trim (ocrKey (settings st)) /\
    prompt (initial_settings (localStorage st')) =
      match prompt (settings st) with
      | [] => DEFAULT_PROMPT
      | p => p
      end /\
    interval (initial_settings (localStorage st')) = interval (settings st) /\
    openAiKey (settings st') = openAiKey (settings st) /\
    ocrKey (settings st') = ocrKey (settings st) /\
    settingsOpen (settings st') = false /\
    run st' = run st /\
    timers st' = timers st.
Proof.
  intros N R.
  unfold saveSettings, bind, setItem, set_settings.
  cbn [run settings timerRef cleanup timers next_timer localStorage trace].
  eexists. split; [reflexivity|].
  cbn [run settings timerRef cleanup timers next_timer localStorage trace
       openAiKey ocrKey prompt interval settingsOpen initial_settings].
  eval_keys.
  unfold item_or, initial_interval.
  repeat split.
  - destruct (trim (openAiKey (settings st))); reflexivity.
  - destruct (trim (ocrKey (settings st))); reflexivity.
  - destruct (toString (interval (settings st))); [congruence | exact R].
Qed.

Lemma save_then_reload_witness :
  exists st',
    saveSettings (fun _ => js "40")
      (world_of None (NetworkError []) (NetworkError []))
      (snd (changeOpenAiKey (js " sk-sample ")
              (world_of None (NetworkError []) (NetworkError []))
              (initial sample_storage)))
    = (Normal tt, st') /\
    openAiKey (settings st') = js " sk-sample " /\
    openAiKey (initial_settings (localStorage st')) = js "sk-sample" /\
    interval (initial_settings (localStorage st')) = num_of_Z 40.
Proof.
  destruct (save_then_reload (fun _ => js "40")
              (world_of None (NetworkError []) (NetworkError []))
              (snd (changeOpenAiKey (js " sk-sample ")
                      (world_of None (NetworkError []) (NetworkError []))
                      (initial sample_storage)))
              ltac:(discriminate) ltac:(vm_compute; reflexivity))
    as (st' & E & A & _ & _ & I & B & _).
  exists st'. split; [exact E|]. split; [exact B|]. split; [exact A | exact I].
Defined.

(** ** The previous revision, continued *)

Lemma frame_ret {A} (a : A) : session_frame (ret a).
Proof.
  intros w st r evs. exists (Normal a), r, []. now rewrite app_nil_r.
Qed.

Lemma frame_bind {A B} (c : M A) (k : A -> M B) :
  session_frame c -> (forall a, session_frame (k a)) -> session_frame (bind c k).
Proof.
  intros Hc Hk w st r evs. unfold bind.
  destruct (Hc w st r evs) as (x & r1 & e1 & -> & C1).
  destruct x as [a | e].
  - destruct (Hk a w st r1 (evs ++ e1)) as (y & r2 & e2 & -> & C2).
    exists y, r2, (e1 ++ e2). rewrite app_assoc. split; [reflexivity | congruence].
  - exists (Throw e), r1, e1. auto.
Qed.

Lemma frame_try_catch {A} (c : M A) (h : exn -> M A) :
  session_frame c -> (forall e, session_frame (h e)) -> session_frame (try_catch c h).
Proof.
  intros Hc Hh w st r evs. unfold try_catch.
  destruct (Hc w st r evs) as (x & r1 & e1 & -> & C1).
  destruct x as [a | e].
  - exists (Normal a), r1, e1. auto.
  - destruct (Hh e w st r1 (evs ++ e1)) as (y & r2 & e2 & -> & C2).
    exists y, r2, (e1 ++ e2). rewrite app_assoc. split; [reflexivity | congruence].
Qed.

Lemma frame_with_run f e :
  (forall r, capturing (f r) = capturing r) -> session_frame (with_run f e).
Proof.
  intros H w st r evs. rewrite with_run_after.
  exists (Normal tt), (f r), [e]. auto.
Qed.

(** A computation that only reads the world. *)
Lemma frame_pure {A} (f : World -> completion A) :
  session_frame (fun w st => (f w, st)).
Proof.
  intros w st r evs. exists (f w), r, []. now rewrite app_nil_r.
Qed.

(** A computation chosen by what the world holds. *)
Lemma frame_reader {A} (f : World -> M A) :
  (forall w0, session_frame (f w0)) -> session_frame (fun w => f w w).
Proof. intros H w. apply H. Qed.

Lemma frame_setStatus s : session_frame (setStatus s).
Proof. apply frame_with_run. reflexivity. Qed.

Lemma frame_setAnswer v : session_frame (setAnswer v).
Proof. apply frame_with_run. reflexivity. Qed.

Lemma frame_axios_post url d headers : session_frame (axios_post url d headers).
Proof.
  unfold axios_post. apply frame_bind.
  - apply frame_with_run. reflexivity.
  - intros _ w st r evs. cbv beta.
    destruct (network w _) as [m | code payload]; [|destruct (is_2xx code)];
      (eexists; exists r, []; rewrite app_nil_r; split; reflexivity).
Qed.

Lemma frame_get_property v k : session_frame (get_property v k).
Proof.
  intros w st r evs. unfold get_property.
  destruct (nullish v); (eexists; exists r, []; rewrite app_nil_r; split; reflexivity).
Qed.

Lemma frame_opt_call_trim v : session_frame (opt_call_trim v).
Proof.
  intros w st r evs. unfold opt_call_trim.
  destruct v; (eexists; exists r, []; rewrite app_nil_r; split; reflexivity).
Qed.

Lemma frame_call_trim v : session_frame (Rev2.call_trim v).
Proof.
  intros w st r evs. unfold Rev2.call_trim.
  destruct v; (eexists; exists r, []; rewrite app_nil_r; split; reflexivity).
Qed.

Create HintDb frame.
#[local] Hint Resolve frame_ret frame_setStatus frame_setAnswer frame_axios_post
  frame_get_property frame_opt_call_trim frame_call_trim : frame.

Ltac frame :=
  repeat first
    [ solve [auto with frame]
    | match goal with
      | |- session_frame (bind _ _) => apply frame_bind; [|intros ?]
      | |- session_frame (try_catch _ _) => apply frame_try_catch; [|intros ?]
      | |- session_frame (if ?b then _ else _) => destruct b
      | |- session_frame (match ?x with _ => _ end) => destruct x
      end ].

Lemma frame_rev2_doOcr cfg src : session_frame (Rev2.doOcr cfg src).
Proof. unfold Rev2.doOcr. frame. Qed.

Lemma frame_rev2_askOpenAI cfg q : session_frame (Rev2.askOpenAI cfg q).
Proof. unfold Rev2.askOpenAI. frame. Qed.

Lemma frame_call_getScreenshot cam : session_frame (call_getScreenshot cam).
Proof.
  unfold call_getScreenshot. apply frame_bind; [|intros ?; apply frame_ret].
  apply frame_with_run. reflexivity.
Qed.

Lemma frame_screenshot_or_null : session_frame Rev2.screenshot_or_null.
Proof.
  intros w st r evs. unfold Rev2.screenshot_or_null.
  destruct (webcamRef w) as [cam |].
  - refine (frame_bind _ _ (frame_call_getScreenshot cam) _ w st r evs).
    intros shot. apply frame_ret.
  - apply frame_ret.
Qed.

#[local] Hint Resolve frame_rev2_doOcr frame_rev2_askOpenAI frame_screenshot_or_null
  : frame.

Lemma bind_with_run {B} f e (k : unit -> M B) w st :
  bind (with_run f e) k w st = k tt w (after st (f (run st)) [e]).
Proof. reflexivity. Qed.

Lemma try_catch_normal (body : M unit) (h : exn -> M unit) :
  (forall e w st, fst (h e w st) = Normal tt) ->
  forall w st, fst (try_catch body h w st) = Normal tt.
Proof.
  intros H w st. unfold try_catch.
  destruct (body w st) as [[[] | e] s]; [reflexivity | apply H].
Qed.

(** The cycle of the previous revision, whatever the world: it returns
    normally, since its [catch] takes what [text.trim()] may throw, and it
    leaves the session, the settings and the timers as they are. *)
Lemma rev2_cycle_after cfg w st r evs :
  exists r' evs',
    Rev2.captureAndProcess cfg w (after st r evs) =
      (Normal tt, after st r' (evs ++ evs')) /\
    capturing r' = capturing r.
Proof.
  assert (F : session_frame (Rev2.captureAndProcess cfg)).
  { unfold Rev2.captureAndProcess. frame. }
  destruct (F w st r evs) as (x & r' & evs' & E & C).
  exists r', evs'. split; [|exact C]. rewrite E. f_equal.
  apply (f_equal fst) in E. cbn [fst] in E. rewrite <- E.
  unfold Rev2.captureAndProcess, setStatus. rewrite bind_with_run.
  apply try_catch_normal. reflexivity.
Qed.

Ltac rev2_unfold :=
  unfold Rev2.captureAndProcess, Rev2.screenshot_or_null, Rev2.doOcr,
    Rev2.askOpenAI, Rev2.call_trim, call_getScreenshot, axios_post, get_property,
    opt_call_trim, setStatus, setAnswer, try_catch, bind, ret.

(** The cycle of the previous revision when the OCR key is not set. *)
Lemma rev2_cycle_no_ocr_key cfg w st r evs cam src :
  ocrKey cfg = [] ->
  webcamRef w = Some cam -> getScreenshot cam = Some src -> src <> [] ->
  Rev2.captureAndProcess cfg w (after st r evs) =
    (Normal tt,
     after st (put_answer (VStr (js "")) (put_status (js "No text found.") r))
       (evs ++ [SetStatus (js "Capturing..."); GetScreenshot;
                SetStatus (js "Extracting text...");
                SetStatus (js "OCR key not set.");
                SetStatus (js "No text found."); SetAnswer (VStr (js ""))])).
Proof.
  intros K R G S. rev2_unfold.
  rewrite with_run_after, R, with_run_after, G.
  destruct src as [| c0 src0]; [congruence|].
  rewrite K. cbn [truthy negb]. rewrite ?with_run_after.
  change (trim (js "")) with (@nil N). cbn [truthy negb].
  rewrite ?with_run_after, <- ?app_assoc. reflexivity.
Qed.

Lemma rev2_cycle_here cfg w st :
  Rev2.captureAndProcess cfg w st =
    Rev2.captureAndProcess cfg w (after st (run st) []).
Proof. now rewrite after_self. Qed.

(** In the previous revision a missing OCR key is found by the OCR client,
    which sets "OCR key not set." and returns the empty string without
    sending anything; the cycle then replaces that status by
    "No text found." and clears the answer.  The session is not stopped. *)
Theorem rev2_missing_ocr_key_sends_nothing cfg w st cam src :
  ocrKey cfg = [] ->
  webcamRef w = Some cam -> getScreenshot cam = Some src -> src <> [] ->
  exists st',
    Rev2.captureAndProcess cfg w st = (Normal tt, st') /\
    statuses (trace st') =
      statuses (trace st) ++ [js "Capturing..."; js "Extracting text...";
                              js "OCR key not set."; js "No text found."] /\
    status (run st') = js "No text found." /\
    answer (run st') = VStr (js "") /\
    posts (trace st') = posts (trace st) /\
    capturing (run st') = capturing (run st).
Proof.
  intros K R G S.
  rewrite rev2_cycle_here, (rev2_cycle_no_ocr_key cfg w st _ _ cam src K R G S).
  eexists. split; [reflexivity|]. cbn.
  rewrite statuses_app, posts_app. cbn. rewrite app_nil_r. repeat split.
Qed.

Lemma rev2_missing_ocr_key_sends_nothing_witness :
  ocrKey (initial_settings empty_storage) = [] /\
  exists st',
    Rev2.captureAndProcess (initial_settings empty_storage)
      (world_of (Some sample_frame) (Response 200 (ocr_body (VStr sample_question)))
         (Response 200 (chat_reply (VStr (js "B")))))
      (initial empty_storage) = (Normal tt, st') /\
    status (run st') = js "No text found." /\
    posts (trace st') = [].
Proof.
  split; [reflexivity|].
  destruct (rev2_missing_ocr_key_sends_nothing (initial_settings empty_storage)
              (world_of (Some sample_frame)
                 (Response 200 (ocr_body (VStr sample_question)))
                 (Response 200 (chat_reply (VStr (js "B")))))
              (initial empty_storage) {| getScreenshot := Some sample_frame |}
              sample_frame eq_refl eq_refl eq_refl ltac:(discriminate))
    as (st' & E & _ & S & _ & P & _).
  exists st'. repeat split; assumption.
Defined.

(** In the previous revision a missing OpenAI key is found by the
    completion client only after the OCR request has been made: it sets
    "OpenAI key not set." and returns the empty string, and the cycle ends
    with the status "Complete" and an empty answer. *)
Theorem rev2_missing_openai_key_ends_Complete cfg w st cam src code payload t :
  ocrKey cfg <> [] -> openAiKey cfg = [] ->
  webcamRef w = Some cam -> getScreenshot cam = Some src -> src <> [] ->
  network w (ocr_request cfg src) = Response code payload ->
  is_2xx code = true ->
  parsed_text payload = VStr t -> trim t <> [] ->
  exists st',
    Rev2.captureAndProcess cfg w st = (Normal tt, st') /\
    statuses (trace st') =
      statuses (trace st) ++ [js "Capturing..."; js "Extracting text...";
                              js "Getting answer..."; js "OpenAI key not set.";
                              js "Complete"] /\
    status (run st') = js "Complete" /\
    answer (run st') = VStr (js "") /\
    posts (trace st') = posts (trace st) ++ [ocr_request cfg src].
Proof.
  intros K K' R G S N C P T.
  apply truthy_string in K. apply truthy_string in T.
  rev2_unfold.
  unfold with_run at 1. rewrite R, with_run_after, G.
  destruct src as [| c0 src0]; [congruence|].
  rewrite with_run_after, K. cbn [negb]. rewrite with_run_after.
  fold (ocr_request cfg (c0 :: src0)). rewrite N, C. cbn [data].
  rewrite P, js_or_string, T. cbn [negb].
  rewrite with_run_after, K'. cbn [truthy negb].
  rewrite !with_run_after. eexists. split; [reflexivity|]. cbn.
  rewrite statuses_app, posts_app. repeat split.
Qed.

Lemma rev2_missing_openai_key_ends_Complete_witness :
  trim sample_question <> [] /\
  exists st',
    Rev2.captureAndProcess
      {| settingsOpen := false; openAiKey := js ""; ocrKey := js "K8-sample";
         prompt := DEFAULT_PROMPT; interval := DEFAULT_INTERVAL |}
      (world_of (Some sample_frame) (Response 200 (ocr_body (VStr sample_question)))
         (Response 200 (chat_reply (VStr (js "B")))))
      (initial empty_storage) = (Normal tt, st') /\
    status (run st') = js "Complete" /\
    answer (run st') = VStr (js "").
Proof.
  split; [vm_compute; discriminate|].
  destruct (rev2_missing_openai_key_ends_Complete
              {| settingsOpen := false; openAiKey := js ""; ocrKey := js "K8-sample";
                 prompt := DEFAULT_PROMPT; interval := DEFAULT_INTERVAL |}
              (world_of (Some sample_frame)
                 (Response 200 (ocr_body (VStr sample_question)))
                 (Response 200 (chat_reply (VStr (js "B")))))
              (initial empty_storage) {| getScreenshot := Some sample_frame |}
              sample_frame 200 (ocr_body (VStr sample_question)) sample_question
              ltac:(discriminate) eq_refl eq_refl eq_refl ltac:(discriminate)
              eq_refl eq_refl eq_refl ltac:(vm_compute; discriminate))
    as (st' & E & _ & S & A & _).
  exists st'. repeat split; assumption.
Defined.

(** In the previous revision the text check calls [text.trim()]: when the
    OCR service sends a [ParsedText] that is truthy but no string, the
    call throws, the cycle's own [catch] reports "Error: " followed by the
    error's message and clears the answer, and nothing is sent to the chat
    service. *)
Theorem rev2_non_string_text_is_caught cfg w st cam src code payload :
  ocrKey cfg <> [] ->
  webcamRef w = Some cam -> getScreenshot cam = Some src -> src <> [] ->
  network w (ocr_request cfg src) = Response code payload ->
  is_2xx code = true ->
  truthy (parsed_text payload) = true ->
  is_string (parsed_text payload) = false ->
  exists st',
    Rev2.captureAndProcess cfg w st = (Normal tt, st') /\
    status (run st') = js "Error: " ++ typeErrorMessage w /\
    answer (run st') = VStr (js "") /\
    posts (trace st') = posts (trace st) ++ [ocr_request cfg src] /\
    capturing (run st') = capturing (run st).
Proof.
  intros K R G S N C T V.
  apply truthy_string in K.
  rev2_unfold.
  unfold with_run at 1. rewrite R, with_run_after, G.
  destruct src as [| c0 src0]; [congruence|].
  rewrite with_run_after, K. cbn [negb]. rewrite with_run_after.
  fold (ocr_request cfg (c0 :: src0)). rewrite N, C. cbn [data].
  rewrite (js_or_truthy _ _ T).
  destruct (parsed_text payload); try discriminate V;
    cbn [Rev2.message]; rewrite !with_run_after;
    (eexists; split; [reflexivity|]); cbn; rewrite posts_app; repeat split.
Qed.

Lemma rev2_non_string_text_is_caught_witness :
  is_string (parsed_text (ocr_body (VNum (num_of_Z 42)))) = false /\
  exists st',
    Rev2.captureAndProcess sample_settings
      (world_of (Some sample_frame)
         (Response 200 (ocr_body (VNum (num_of_Z 42))))
         (Response 200 (chat_reply (VStr (js "B")))))
      (initial sample_storage) = (Normal tt, st') /\
    status (run st') = js "Error: TypeError" /\
    posts (trace st') = [ocr_request sample_settings sample_frame].
Proof.
  split; [reflexivity|].
  destruct (rev2_non_string_text_is_caught sample_settings
              (world_of (Some sample_frame)
                 (Response 200 (ocr_body (VNum (num_of_Z 42))))
                 (Response 200 (chat_reply (VStr (js "B")))))
              (initial sample_storage) {| getScreenshot := Some sample_frame |}
              sample_frame 200 (ocr_body (VNum (num_of_Z 42)))
              ltac:(discriminate) eq_refl eq_refl ltac:(discriminate)
              eq_refl eq_refl eq_refl eq_refl)
    as (st' & E & S & _ & P & _).
  exists st'. repeat split; assumption.
Defined.

(** In the previous revision too a failed completion call is reported and
    then covered: the client sets "OpenAI failed: " followed by the
    error's message and returns "API Error", and the cycle ends with the
    status "Complete". *)
Theorem rev2_failed_completion_ends_Complete cfg w st cam src code payload t m :
  ocrKey cfg <> [] -> openAiKey cfg <> [] ->
  webcamRef w = Some cam -> getScreenshot cam = Some src -> src <> [] ->
  network w (ocr_request cfg src) = Response code payload ->
  is_2xx code = true ->
  parsed_text payload = VStr t -> trim t <> [] ->
  network w (Rev2App.chat_request cfg (VStr t)) = NetworkError m ->
  exists st',
    Rev2.captureAndProcess cfg w st = (Normal tt, st') /\
    statuses (trace st') =
      statuses (trace st) ++ [js "Capturing..."; js "Extracting text...";
                              js "Getting answer..."; js "OpenAI failed: " ++ m;
                              js "Complete"] /\
    status (run st') = js "Complete" /\
    answer (run st') = VStr API_ERROR /\
    posts (trace st') =
      posts (trace st) ++ [ocr_request cfg src; Rev2App.chat_request cfg (VStr t)].
Proof.
  intros K K' R G S N C P T J.
  apply truthy_string in K. apply truthy_string in K'. apply truthy_string in T.
  rev2_unfold.
  unfold with_run at 1. rewrite R, with_run_after, G.
  destruct src as [| c0 src0]; [congruence|].
  rewrite with_run_after, K. cbn [negb]. rewrite with_run_after.
  fold (ocr_request cfg (c0 :: src0)). rewrite N, C. cbn [data].
  rewrite P, js_or_string, T. cbn [negb].
  rewrite with_run_after, K'. cbn [negb]. rewrite with_run_after.
  fold (Rev2App.chat_request cfg (VStr t)). rewrite J. cbn [Rev2.message].
  rewrite !with_run_after. eexists. split; [reflexivity|]. cbn.
  rewrite statuses_app, posts_app. repeat split.
Qed.

Lemma rev2_failed_completion_ends_Complete_witness :
  exists st',
    Rev2.captureAndProcess sample_settings
      (world_of (Some sample_frame)
         (Response 200 (ocr_body (VStr sample_question)))
         (NetworkError (js "Network Error")))
      (initial sample_storage) = (Normal tt, st') /\
    status (run st') = js "Complete" /\
    answer (run st') = VStr API_ERROR /\
    In (js "OpenAI failed: Network Error") (statuses (trace st')).
Proof.
  destruct (rev2_failed_completion_ends_Complete sample_settings
              (world_of (Some sample_frame)
                 (Response 200 (ocr_body (VStr sample_question)))
                 (NetworkError (js "Network Error")))
              (initial sample_storage) {| getScreenshot := Some sample_frame |}
              sample_frame 200 (ocr_body (VStr sample_question)) sample_question
              (js "Network Error")
              ltac:(discriminate) ltac:(discriminate) eq_refl eq_refl
              ltac:(discriminate) eq_refl eq_refl eq_refl
              ltac:(vm_compute; discriminate) eq_refl)
    as (st' & E & T & S & A & _).
  exists st'. split; [exact E|]. split; [exact S|]. split; [exact A|].
  rewrite T. cbn. auto.
Defined.

(** Starting a session of the previous revision from rest. *)
Lemma rev2_started w st :
  idle st = true ->
  exists r' evs,
    Rev2.captureAndProcess (settings st) w
      (after st (put_dotColor (js "green") (put_capturing true (run st)))
         [SetCapturing true; SetDotColor (js "green")]) =
      (Normal tt,
       after st r' ([SetCapturing true; SetDotColor (js "green")] ++ evs)) /\
    capturing r' = true /\
    Rev2App.clickStart w st =
      (Normal tt,
       {| run := r'; settings := settings st; timerRef := Some (next_timer st);
          cleanup := true;
          timers := [ {| timer_id := next_timer st;
                         timer_delay := num_of_Z 40000;
                         timer_closure := settings st |} ];
          next_timer := S (next_timer st);
          localStorage := localStorage st;
          trace := trace st ++ [SetCapturing true; SetDotColor (js "green")] ++ evs |}).
Proof.
  intros I. apply idle_inv in I as (C & L & T).
  destruct (rev2_cycle_after (settings st) w st
              (put_dotColor (js "green") (put_capturing true (run st)))
              [SetCapturing true; SetDotColor (js "green")]) as (r' & evs & E & C').
  exists r', evs. split; [exact E|]. split; [exact C'|].
  unfold Rev2App.clickStart. rewrite C.
  unfold setCapturing, bind. unfold with_run at 1.
  unfold Rev2App.commit at 1. cbn [cleanup after]. rewrite L.
  unfold bind, ret, Rev2App.effect at 1.
  cbn [run after capturing put_capturing settings].
  unfold setDotColor, bind, fire, ret. rewrite with_run_after. cbn [app].
  rewrite E. cbn [snd].
  unfold setInterval_current, set_timers, set_cleanup.
  cbn [after run settings timerRef cleanup timers next_timer localStorage trace].
  rewrite C', T. reflexivity.
Qed.

(** The previous revision does not look at the keys before it starts: a
    session started without an OCR key stays active, on a timer of 40 000
    milliseconds, and its first cycle ends "No text found." without any
    request.  ([App.tsx] ends such a session at once.) *)
Theorem rev2_session_starts_without_keys w st cam src :
  idle st = true -> ocrKey (settings st) = [] ->
  webcamRef w = Some cam -> getScreenshot cam = Some src -> src <> [] ->
  exists st',
    Rev2App.clickStart w st = (Normal tt, st') /\
    capturing (run st') = true /\
    timers st' = [ {| timer_id := next_timer st;
                      timer_delay := num_of_Z 40000;
                      timer_closure := settings st |} ] /\
    status (run st') = js "No text found." /\
    posts (trace st') = posts (trace st).
Proof.
  intros I K R G S.
  destruct (rev2_started w st I) as (r' & evs & E & C & E').
  rewrite (rev2_cycle_no_ocr_key (settings st) w st _ _ cam src K R G S) in E.
  apply (f_equal snd) in E. cbn [snd] in E. apply after_inj in E as [<- E].
  apply app_inv_head in E. subst evs.
  eexists. split; [exact E'|]. cbn. rewrite !posts_app. cbn.
  rewrite app_nil_r. repeat split.
Qed.

Lemma rev2_session_starts_without_keys_witness :
  ocrKey (settings (initial empty_storage)) = [] /\
  exists st',
    Rev2App.clickStart
      (world_of (Some sample_frame) (NetworkError []) (NetworkError []))
      (initial empty_storage) = (Normal tt, st') /\
    capturing (run st') = true /\
    status (run st') = js "No text found.".
Proof.
  split; [reflexivity|].
  destruct (rev2_session_starts_without_keys
              (world_of (Some sample_frame) (NetworkError []) (NetworkError []))
              (initial empty_storage) {| getScreenshot := Some sample_frame |}
              sample_frame eq_refl eq_refl eq_refl eq_refl ltac:(discriminate))
    as (st' & E & C & _ & S & _).
  exists st'. repeat split; assumption.
Defined.

(** In the previous revision the timer keeps the keys of the moment the
    session started: keys typed into the settings panel while a session
    that was started without an OCR key is running are stored in the
    state, but the cycles the timer runs still find no key, send nothing
    and end "No text found.". *)
Theorem rev2_keys_typed_during_session_are_not_used
    w w1 w2 w3 st st1 st2 st3 cam src k k' :
  idle st = true -> ocrKey (settings st) = [] ->
  Rev2App.clickStart w st = (Normal tt, st1) ->
  Rev2App.changeOcrKey k w1 st1 = (Normal tt, st2) ->
  Rev2App.changeOpenaiKey k' w2 st2 = (Normal tt, st3) ->
  webcamRef w3 = Some cam -> getScreenshot cam = Some src -> src <> [] ->
  exists st4,
    Rev2App.tick (next_timer st) w3 st3 = (Normal tt, st4) /\
    ocrKey (settings st4) = k /\
    openAiKey (settings st4) = k' /\
    status (run st4) = js "No text found." /\
    posts (trace st4) = posts (trace st3) /\
    capturing (run st4) = true.
Proof.
  intros I K E1 E2 E3 R G S.
  destruct (rev2_started w st I) as (r' & evs & _ & C & E).
  rewrite E in E1. injection E1 as <-.
  unfold Rev2App.changeOcrKey, set_settings in E2. injection E2 as <-.
  unfold Rev2App.changeOpenaiKey, set_settings in E3. injection E3 as <-.
  unfold Rev2App.tick.
  cbn [timers find timer_id run settings capturing timer_closure].
  rewrite Nat.eqb_refl. unfold bind, fire.
  rewrite rev2_cycle_here,
    (rev2_cycle_no_ocr_key (settings st) w3 _ _ _ cam src K R G S).
  cbn [snd run after capturing put_answer put_status]. rewrite eqb_reflx.
  eexists. split; [reflexivity|]. cbn. rewrite posts_app. cbn.
  rewrite app_nil_r. repeat split. exact C.
Qed.

Lemma rev2_keys_typed_during_session_are_not_used_witness :
  ocrKey (settings (initial empty_storage)) = [] /\
  exists st4,
    Rev2App.tick 1
      (world_of (Some sample_frame) (Response 200 (ocr_body (VStr sample_question)))
         (Response 200 (chat_reply (VStr (js "B")))))
      (snd (Rev2App.changeOpenaiKey (js "sk-sample")
              (world_of None (NetworkError []) (NetworkError []))
              (snd (Rev2App.changeOcrKey (js "K8-sample")
                      (world_of None (NetworkError []) (NetworkError []))
                      (snd (Rev2App.clickStart
                              (world_of None (NetworkError []) (NetworkError []))
                              (initial empty_storage)))))))
    = (Normal tt, st4) /\
    ocrKey (settings st4) = js "K8-sample" /\
    status (run st4) = js "No text found." /\
    posts (trace st4) = [].
Proof.
  split; [reflexivity|].
  destruct (rev2_keys_typed_during_session_are_not_used
              (world_of None (NetworkError []) (NetworkError []))
              (world_of None (NetworkError []) (NetworkError []))
              (world_of None (NetworkError []) (NetworkError []))
              (world_of (Some sample_frame)
                 (Response 200 (ocr_body (VStr sample_question)))
                 (Response 200 (chat_reply (VStr (js "B")))))
              (initial empty_storage)
              (snd (Rev2App.clickStart
                      (world_of None (NetworkError []) (NetworkError []))
                      (initial empty_storage)))
              (snd (Rev2App.changeOcrKey (js "K8-sample")
                      (world_of None (NetworkError []) (NetworkError []))
                      (snd (Rev2App.clickStart
                              (world_of None (NetworkError []) (NetworkError []))
                              (initial empty_storage)))))
              (snd (Rev2App.changeOpenaiKey (js "sk-sample")
                      (world_of None (NetworkError []) (NetworkError []))
                      (snd (Rev2App.changeOcrKey (js "K8-sample")
                              (world_of None (NetworkError []) (NetworkError []))
                              (snd (Rev2App.clickStart
                                      (world_of None (NetworkError []) (NetworkError []))
                                      (initial empty_storage)))))))
              {| getScreenshot := Some sample_frame |} sample_frame
              (js "K8-sample") (js "sk-sample")
              ltac:(vm_compute; reflexivity) ltac:(vm_compute; reflexivity)
              ltac:(vm_compute; reflexivity) ltac:(vm_compute; reflexivity)
              ltac:(vm_compute; reflexivity) ltac:(vm_compute; reflexivity)
              ltac:(vm_compute; reflexivity) ltac:(discriminate))
    as (st4 & E & A & _ & S & P & _).
  exists st4. split; [exact E|]. split; [exact A|]. split; [exact S|].
  rewrite P. vm_compute. reflexivity.
Defined.

(** ** Settings at rest *)

(** Editing a key, the prompt or the interval while no session runs
    reaches neither the webcam nor the network and starts nothing: the
    component stays at rest. *)
Theorem edit_at_rest_sends_nothing text w st :
  idle st = true ->
  (idle (snd (changeOpenAiKey text w st)) = true /\
   posts (trace (snd (changeOpenAiKey text w st))) = posts (trace st)) /\
  (idle (snd (changeOcrKey text w st)) = true /\
   posts (trace (snd (changeOcrKey text w st))) = posts (trace st)) /\
  (idle (snd (changePrompt text w st)) = true /\
   posts (trace (snd (changePrompt text w st))) = posts (trace st)) /\
  (idle (snd (changeInterval text w st)) = true /\
   posts (trace (snd (changeInterval text w st))) = posts (trace st)).
Proof.
  intros I. apply idle_inv in I as (C & L & T).
  assert (K : forall s0,
             capturing (run s0) = false -> cleanup s0 = false -> timers s0 = [] ->
             exists s1,
               commit w s0 = (Normal tt, s1) /\
               capturing (run s1) = false /\
               idle s1 = true /\
               posts (trace s1) = posts (trace s0)).
  { intros s0 C0 L0 T0. unfold commit. rewrite L0.
    unfold bind, ret, effect. rewrite C0.
    unfold setDotColor, setStatus, bind, ret, clear_current, clearInterval,
      set_timers, set_cleanup, with_run, after.
    cbn [timerRef timers run next_timer settings cleanup localStorage trace].
    destruct (timerRef s0); (eexists; split; [reflexivity|]); unfold idle;
      cbn [run capturing cleanup timers put_status put_dotColor trace];
      rewrite ?T0, ?C0, !posts_app; cbn; rewrite !app_nil_r; auto. }
  assert (H : forall changed f,
             idle (snd (set_dependency changed f w st)) = true /\
             posts (trace (snd (set_dependency changed f w st))) = posts (trace st)).
  { intros changed f. unfold set_dependency, bind, set_settings.
    destruct changed.
    - match goal with |- context [commit w ?s] =>
        destruct (K s C L T) as (s1 & -> & C1 & I1 & P1) end.
      cbn [run] in *. rewrite C1, C. cbn [Bool.eqb snd]. auto.
    - unfold ret. cbn [snd]. unfold idle. cbn [run cleanup timers trace].
      rewrite C, L, T. auto. }
  unfold changeOpenAiKey, changeOcrKey, changePrompt, changeInterval. auto.
Qed.

Lemma edit_at_rest_sends_nothing_witness :
  idle (snd (changeOcrKey (js "K8-sample")
               (world_of (Some sample_frame)
                  (Response 200 (ocr_body (VStr sample_question)))
                  (Response 200 (chat_reply (VStr (js "B")))))
               (initial empty_storage))) = true.
Proof.
  exact (proj1 (proj1 (proj2
           (edit_at_rest_sends_nothing (js "K8-sample")
              (world_of (Some sample_frame)
                 (Response 200 (ocr_body (VStr sample_question)))
                 (Response 200 (chat_reply (VStr (js "B")))))
              (initial empty_storage) eq_refl)))).
Defined.

(** ** Witnesses *)

Lemma empty_text_aborts_witness :
  exists st',
    captureAndProcess sample_settings
      (world_of (Some sample_frame) (Response 200 (ocr_body (VStr (js ""))))
         (Response 200 (chat_reply (VStr (js "B")))))
      (initial sample_storage) = (Normal tt, st') /\
    status (run st') = js "No text found." /\
    posts (trace st') = [ocr_request sample_settings sample_frame].
Proof.
  destruct (empty_text_aborts sample_settings
              (world_of (Some sample_frame) (Response 200 (ocr_body (VStr (js ""))))
                 (Response 200 (chat_reply (VStr (js "B")))))
              (initial sample_storage) {| getScreenshot := Some sample_frame |}
              sample_frame eq_refl eq_refl eq_refl ltac:(discriminate)
              (or_intror
                 (ex_intro _ 200
                    (ex_intro _ (ocr_body (VStr (js "")))
                       (conj eq_refl (conj eq_refl eq_refl))))))
    as (st' & E & S & _ & _ & P).
  exists st'. repeat split; assumption.
Defined.

Lemma rev2_blank_text_aborts_witness :
  trim (js " ") = [] /\
  exists st',
    Rev2.captureAndProcess sample_settings
      (world_of (Some sample_frame) (Response 200 (ocr_body (VStr (js " "))))
         (Response 200 (chat_reply (VStr (js "A")))))
      (initial sample_storage) = (Normal tt, st') /\
    status (run st') = js "No text found." /\
    posts (trace st') = [ocr_request sample_settings sample_frame].
Proof.
  split; [reflexivity|].
  destruct (rev2_blank_text_aborts sample_settings
              (world_of (Some sample_frame) (Response 200 (ocr_body (VStr (js " "))))
                 (Response 200 (chat_reply (VStr (js "A")))))
              (initial sample_storage) {| getScreenshot := Some sample_frame |}
              sample_frame 200 (ocr_body (VStr (js " "))) (js " ")
              ltac:(discriminate) eq_refl eq_refl ltac:(discriminate)
              eq_refl eq_refl eq_refl eq_refl)
    as (st' & E & S & _ & P).
  exists st'. repeat split; assumption.
Defined.

Lemma rev2_no_frame_clears_answer_witness :
  exists st',
    Rev2.captureAndProcess sample_settings
      (world_of None (NetworkError []) (NetworkError []))
      (snd (setAnswer (VStr (js "B"))
              (world_of None (NetworkError []) (NetworkError []))
              (initial sample_storage))) = (Normal tt, st') /\
    answer (run st') = VStr (js "").
Proof.
  destruct (rev2_no_frame_clears_answer sample_settings
              (world_of None (NetworkError []) (NetworkError []))
              (snd (setAnswer (VStr (js "B"))
                      (world_of None (NetworkError []) (NetworkError []))
                      (initial sample_storage)))
              {| getScreenshot := None |} eq_refl eq_refl)
    as (st' & E & _ & A).
  exists st'. split; assumption.
Defined.

Lemma cycle_final_status_witness :
  In (status (run (snd (captureAndProcess sample_settings
                          (world_of (Some sample_frame)
                             (Response 500 (VStr (js "")))
                             (NetworkError []))
                          (initial sample_storage)))))
     [ js "Camera failed."; js "No text found."; js "Complete" ].
Proof.
  exact (proj2
           (cycle_final_status sample_settings
              (world_of (Some sample_frame) (Response 500 (VStr (js "")))
                 (NetworkError []))
              (initial sample_storage))
           eq_refl ltac:(discriminate)).
Defined.

Lemma answer_stays_string_witness :
  is_string
    (answer (run (snd (captureAndProcess sample_settings
                         (world_of (Some sample_frame)
                            (Response 200 (ocr_body (VNum (num_of_Z 42))))
                            (Response 200 (chat_reply (VNum (num_of_Z 7)))))
                         (initial sample_storage))))) = true.
Proof.
  exact (answer_stays_string sample_settings
           (world_of (Some sample_frame)
              (Response 200 (ocr_body (VNum (num_of_Z 42))))
              (Response 200 (chat_reply (VNum (num_of_Z 7)))))
           (initial sample_storage) eq_refl).
Defined.
